(** * provider-ssh: remote script execution and the Script controller

    A shallow embedding of [internal/client/ssh.go] (session client and
    script runner) and of [internal/controller/script/script.go]
    (the Observe operation of the Script controller), together with the
    properties of the natural-language specification that concern them.

    Go strings are modelled as [string] (sequences of 8-bit characters),
    Go [int] exit statuses as [Z], Go [error] values as the inductive type
    [error], and every call that leaves the process (network dial, remote
    sessions, file transfer, logging) as a step of a state monad over an
    abstract world, recorded in a trace of events. *)

From Stdlib Require Import String Ascii List ZArith Lia Bool Arith.
From Stdlib Require Import DecimalString.
Import ListNotations.
Open Scope string_scope.

(* ===================================================================== *)
(** ** Strings *)
(* ===================================================================== *)

Module Strings.

(** [strings.Contains(s, p)]: [p] occurs in [s] at some offset. *)
Fixpoint Contains (s p : string) : bool :=
  prefix p s ||
  match s with
  | EmptyString => false
  | String _ s' => Contains s' p
  end.

(** The scanning loop of [strings.Replace(s, old, new, -1)] for a non-empty
    [old]: the text is read left to right; where [old] starts, [new] is
    written and the [length old] characters of the match are passed over
    ([skip] counts the ones still to pass over); elsewhere the character is
    copied.  What was written is never read again. *)
Fixpoint replace_from (old new : string) (skip : nat) (s : string) : string :=
  match s with
  | EmptyString => EmptyString
  | String c s' =>
      match skip with
      | S k => replace_from old new k s'
      | O =>
          if prefix old s
          then new ++ replace_from old new (String.length old - 1) s'
          else String c (replace_from old new 0 s')
      end
  end.

(** [strings.ReplaceAll(s, old, new)].  The repository calls it with
    [old = "{{" + name + "}}"] only, which is never empty; for an empty
    [old] Go interleaves [new] between the runes of [s], a case this model
    does not cover and answers with [s] itself. *)
Definition ReplaceAll (s old new : string) : string :=
  match old with
  | EmptyString => s
  | _ => replace_from old new 0 s
  end.

(** The same scan, cutting instead of rewriting: [strings.Split(s, old)] for
    a non-empty [old].  The result is never empty. *)
Definition cons_head (c : ascii) (l : list string) : list string :=
  match l with
  | [] => [String c EmptyString]
  | p :: ps => String c p :: ps
  end.

Fixpoint split_from (old : string) (skip : nat) (s : string) : list string :=
  match s with
  | EmptyString => [EmptyString]
  | String c s' =>
      match skip with
      | S k => split_from old k s'
      | O =>
          if prefix old s
          then EmptyString :: split_from old (String.length old - 1) s'
          else cons_head c (split_from old 0 s')
      end
  end.

Definition Split (s old : string) : list string :=
  match old with
  | EmptyString => [s]
  | _ => split_from old 0 s
  end.

(** [strings.Join(l, sep)]. *)
Fixpoint Join (l : list string) (sep : string) : string :=
  match l with
  | [] => EmptyString
  | [p] => p
  | p :: ps => p ++ sep ++ Join ps sep
  end.

(** A string without the characters ['{'] and ['}']. *)
Fixpoint brace_free (s : string) : bool :=
  match s with
  | EmptyString => true
  | String c s' =>
      negb (Ascii.eqb c "{") && negb (Ascii.eqb c "}") && brace_free s'
  end.

End Strings.
Import Strings.

(* ===================================================================== *)
(** ** Variables and substitution (ssh.go, ReplaceVariables) *)
(* ===================================================================== *)

(** Modelled from the spec: the declaration of [v1alpha1.Variable] is
    missing from the sources; a variable is a name/value pair of strings
    (spec, section 3), with the field names [ReplaceVariables] uses. *)
Record Var := mkVar { Name : string; Value : string }.

(** The placeholder of a variable name: ["{{" + name + "}}"]. *)
Definition placeholder (name : string) : string := "{{" ++ name ++ "}}".

(** [ReplaceVariables]: one [strings.ReplaceAll] per variable, in the order
    of the list, each applied to the text the previous one produced. *)
Fixpoint ReplaceVariables (script : string) (vars : list Var) : string :=
  match vars with
  | [] => script
  | v :: vars' =>
      ReplaceVariables (ReplaceAll script (placeholder (Name v)) (Value v)) vars'
  end.

(** The substitution as the specification words it: a single pass over
    the script, in which the placeholder of any variable of the list is
    replaced where it starts, and what was written is not read again. *)
Fixpoint find_placeholder (vars : list Var) (s : string) : option Var :=
  match vars with
  | [] => None
  | v :: vars' =>
      if prefix (placeholder (Name v)) s then Some v
      else find_placeholder vars' s
  end.

Fixpoint single_pass_from (vars : list Var) (skip : nat) (s : string) : string :=
  match s with
  | EmptyString => EmptyString
  | String c s' =>
      match skip with
      | S k => single_pass_from vars k s'
      | O =>
          match find_placeholder vars s with
          | Some v =>
              Value v
              ++ single_pass_from vars
                   (String.length (placeholder (Name v)) - 1) s'
          | None => String c (single_pass_from vars 0 s')
          end
      end
  end.

Definition spec_substitute (script : string) (vars : list Var) : string :=
  single_pass_from vars 0 script.

(* ===================================================================== *)
(** ** Errors, events and the world *)
(* ===================================================================== *)

(** Go [error] values: [errors.New] and the errors of the libraries,
    [errors.Wrap], and the [ExitError] of package ssh, which carries the
    exit status of a remote process that ran and terminated with a non-zero
    status. *)
Inductive error : Type :=
| ErrorNew (msg : string)
| ErrorWrap (cause : error) (msg : string)
| ExitError (status : Z).

Definition Z_to_string (z : Z) : string := NilZero.string_of_int (Z.to_int z).

(** [err.Error()]. *)
Fixpoint error_message (e : error) : string :=
  match e with
  | ErrorNew msg => msg
  | ErrorWrap cause msg => msg ++ ": " ++ error_message cause
  | ExitError status => "Process exited with status " ++ Z_to_string status
  end.

(** The type assertion of [err] to a pointer to [ssh.ExitError]: it succeeds
    on an exit error itself, not on one that has been wrapped. *)
Definition asExitError (e : error) : option Z :=
  match e with
  | ExitError status => Some status
  | _ => None
  end.

(** Handles issued by the SSH libraries. *)
Inductive Client : Type := client_handle (id : nat).
Inductive Session : Type := session_handle (id : nat).
Inductive SftpClient : Type := sftp_handle (id : nat).
Inductive RemoteFile : Type := file_handle (id : nat).
Inductive Signer : Type := signer_of_key (key : list Byte.byte).

(** [ssh.AuthMethod]; the signer is [None] for Go's nil signer. *)
Inductive AuthMethod : Type :=
| PublicKeys (signer : option Signer)
| PasswordAuth (password : string).

Inductive HostKeyCallback : Type :=
| InsecureIgnoreHostKey
| KnownHostsCallback (entries : string).

(** [ssh.ClientConfig], the fields the client sets. *)
Record ClientConfig := mkClientConfig {
  User : string;
  Auth : list AuthMethod;
  HostKeyCallback_ : option HostKeyCallback
}.

(** [Config]: the decoded credential payload. *)
Record Config := mkConfig {
  RemoteHostIP : string;
  RemoteHostPort : string;
  Username : string;
  Password : string;
  PrivateKey : string;
  KnownHosts : string
}.

(** Everything the code does outside the process, in the order it does it. *)
Inductive Event : Type :=
| EvLogInfo (msg : string) (keysAndValues : list string)
| EvLogError (err : error) (msg : string)
| EvDial (network addr : string) (config : ClientConfig)
| EvSleep (nanoseconds : Z)
| EvRandRead (n : nat)
| EvNewSession
| EvSessionRun (cmd : string)
| EvSessionClose
| EvSftpNewClient
| EvSftpCreate (path : string)
| EvFileWrite (content : string)
| EvFileClose.

(** The libraries and the outside world the code runs against.  [W] is the
    state of that world (network, remote host, random source); each call
    may change it.  The pure functions are the decoders of the libraries. *)
Class World (W : Type) := {
  json_Unmarshal : string -> Config + error;
  knownhosts_New : string -> HostKeyCallback + error;
  base64_DecodeString : string -> list Byte.byte * option error;
  ssh_ParsePrivateKey : list Byte.byte -> Signer + error;
  ssh_Dial : string -> string -> ClientConfig -> W -> (Client + error) * W;
  time_Sleep : Z -> W -> unit * W;
  rand_Read : nat -> W -> list Byte.byte * W;
  client_NewSession : Client -> W -> (Session + error) * W;
  session_Run : Session -> string -> W -> (string * string * option error) * W;
  session_Close : Session -> W -> option error * W;
  sftp_NewClient : Client -> W -> (SftpClient + error) * W;
  sftp_Create : SftpClient -> string -> W -> (RemoteFile + error) * W;
  file_WriteTo : RemoteFile -> string -> W -> option error * W;
  file_Close : RemoteFile -> W -> option error * W
}.

(** *** The monad: world state and trace *)

Record St (W : Type) := mkSt { world : W; trace : list Event }.
Arguments mkSt {W} _ _.
Arguments world {W} _.
Arguments trace {W} _.

Definition M (W A : Type) : Type := St W -> A * St W.

Definition ret {W A} (a : A) : M W A := fun s => (a, s).

Definition bind {W A B} (m : M W A) (k : A -> M W B) : M W B :=
  fun s => let (a, s') := m s in k a s'.

Declare Scope run_scope.
Delimit Scope run_scope with run.
Notation "x <- m ;; k" := (bind m (fun x => k))
  (at level 61, m at next level, right associativity) : run_scope.
Notation "m ;;; k" := (bind m (fun _ => k))
  (at level 61, right associativity) : run_scope.

(** One call to the outside: the event is appended to the trace and the
    world answers. *)
Definition call {W A} (ev : Event) (op : W -> A * W) : M W A :=
  fun s => let (a, w') := op (world s) in
           (a, mkSt w' (trace s ++ [ev])%list).

Definition emit {W} (ev : Event) : M W unit :=
  fun s => (tt, mkSt (world s) (trace s ++ [ev])%list).

Definition logInfo {W} (msg : string) (kvs : list string) : M W unit :=
  emit (EvLogInfo msg kvs).

Definition logError {W} (err : error) (msg : string) : M W unit :=
  emit (EvLogError err msg).

(** Running a computation from a world with an empty trace. *)
Definition run {W A} (m : M W A) (w : W) : A * St W := m (mkSt w []).

(* ===================================================================== *)
(** ** Session client (ssh.go, NewSSHClient) *)
(* ===================================================================== *)

Module SSHClient.

(** The pieces of a host string between its dots. *)
Fixpoint labels (s : string) : list string :=
  match s with
  | EmptyString => [EmptyString]
  | String c s' =>
      if Ascii.eqb c "." then EmptyString :: labels s'
      else cons_head c (labels s')
  end.

Definition is_digit (c : ascii) : bool :=
  let n := nat_of_ascii c in ((48 <=? n) && (n <=? 57))%nat.

Fixpoint all_digits (s : string) : bool :=
  match s with
  | EmptyString => true
  | String c s' => is_digit c && all_digits s'
  end.

(** The pattern [^(\d{1,3}\.){3}\d{1,3}$]: four groups of one to three
    decimal digits, separated by dots. *)
Definition matches_ipv4Pattern (s : string) : bool :=
  let l := labels s in
  (List.length l =? 4)%nat &&
  forallb (fun p => (1 <=? String.length p)%nat && (String.length p <=? 3)%nat
                    && all_digits p) l.

(** The pattern [^[^\.]+(\.[^\.]+)+$]: two or more non-empty groups of
    characters other than the dot, separated by dots. *)
Definition matches_urlPattern (s : string) : bool :=
  let l := labels s in
  (2 <=? List.length l)%nat &&
  forallb (fun p => negb (String.eqb p EmptyString)) l.

Definition isValidIPv4 (inputAddress : string) : bool :=
  if matches_ipv4Pattern inputAddress || matches_urlPattern inputAddress
  then true else false.

Definition maxAttempts : nat := 3.

(** [2 * time.Second], in nanoseconds. *)
Definition delayBetweenRetries : Z := 2 * 1000000000.

Definition is_dial (e : Event) : bool :=
  match e with
  | EvDial _ _ _ => true
  | _ => false
  end.

(** The dials of a trace. *)
Definition dials (tr : list Event) : list Event := filter is_dial tr.

Definition with_password (kc : Config) (password : string) : Config :=
  mkConfig (RemoteHostIP kc) (RemoteHostPort kc) (Username kc) password
           (PrivateKey kc) (KnownHosts kc).

Section Connect.
Context {W : Type} `{World W}.
Local Open Scope run_scope.

(** The [switch] on the authentication material (lines 76-97): the private
    key is looked at first; its decoding and parsing errors are logged and
    nothing else; the password is looked at only when there is no private
    key; [None] stands for the [default] branch, which makes the caller
    return. *)
Definition authMethods (kc : Config) : M W (option (list AuthMethod)) :=
  if negb (String.eqb (PrivateKey kc) "") then
    let (privateKeyBytes, derr) := base64_DecodeString (PrivateKey kc) in
    match derr with
    | Some err => logError err "Error decoding base64 private key"
    | None => ret tt
    end ;;;
    match ssh_ParsePrivateKey privateKeyBytes with
    | inr err =>
        logError err "Failed to parse private key" ;;;
        ret (Some [PublicKeys None])
    | inl signer => ret (Some [PublicKeys (Some signer)])
    end
  else if negb (String.eqb (Password kc) "") then
    ret (Some [PasswordAuth (Password kc)])
  else ret None.

(** The retry loop (lines 107-120).  [attempts] is the loop counter,
    [client] and [err] the variables the loop assigns; [fuel] bounds the
    number of iterations and is [maxAttempts] at the call. *)
Fixpoint dialLoop (fuel attempts : nat) (remoteHost : string)
    (config : ClientConfig) (client : option Client) (err : option error)
    : M W (option Client * option error) :=
  match fuel with
  | O => ret (client, err)
  | S fuel' =>
      if (attempts <=? maxAttempts)%nat then
        r <- call (EvDial "tcp" remoteHost config)
                  (ssh_Dial "tcp" remoteHost config) ;;
        match r with
        | inl c => ret (Some c, None)
        | inr e =>
            logInfo ("Failed to dial: " ++ remoteHost ++ " with username "
                     ++ User config ++ ", attempt "
                     ++ Z_to_string (Z.of_nat attempts) ++ "/"
                     ++ Z_to_string (Z.of_nat maxAttempts) ++ ", error: "
                     ++ error_message e) [] ;;;
            (if (attempts <? maxAttempts)%nat
             then call (EvSleep delayBetweenRetries)
                       (time_Sleep delayBetweenRetries)
             else ret tt) ;;;
            dialLoop fuel' (S attempts) remoteHost config None (Some e)
        end
      else ret (client, err)
  end.

(** The end of [NewSSHClient] (lines 99-128): the retry loop, then the
    check of the error the loop left. *)
Definition dialWithRetries (remoteHost : string) (config : ClientConfig)
    : M W (option Client * option error) :=
  r <- dialLoop maxAttempts 1 remoteHost config None None ;;
  match r with
  | (_, Some err) =>
      logInfo ("All %d attempts to connect to %s failed."
               ++ String (ascii_of_nat 10) EmptyString)
              [Z_to_string (Z.of_nat maxAttempts); remoteHost] ;;;
      ret (None, Some err)
  | (client, None) => ret (client, None)
  end.

(** The body of [NewSSHClient] once the payload is decoded into [kc]. *)
Definition connectConfig (kc : Config)
    : M W (option Client * option error) :=
  if String.eqb (Username kc) "" then
    ret (None, Some (ErrorNew "Username key not found in the data"))
  else if String.eqb (RemoteHostIP kc) "" then
    ret (None, Some (ErrorNew "Remote host key not found in the data"))
  else if negb (isValidIPv4 (RemoteHostIP kc)) then
    ret (None, Some (ErrorNew ("Remote host address is not a valid: "
                               ++ RemoteHostIP kc)))
  else
    port <- (if String.eqb (RemoteHostPort kc) "" then
               logInfo "Remote host port key not found in the data, using default port 22" [] ;;;
               ret "22"
             else ret (RemoteHostPort kc)) ;;
    match (if negb (String.eqb (KnownHosts kc) "")
           then knownhosts_New (KnownHosts kc)
           else inl InsecureIgnoreHostKey) with
    | inr err =>
        ret (None, Some (ErrorWrap err "Failed to create known hosts callback"))
    | inl knownHostsCallback =>
        auth <- authMethods kc ;;
        match auth with
        | None =>
            ret (None, Some (ErrorNew
                   "Private Key or Password key not found in the data."))
        | Some methods =>
            let config := mkClientConfig (Username kc) methods
                            (Some knownHostsCallback) in
            let remoteHost := RemoteHostIP kc ++ ":" ++ port in
            dialWithRetries remoteHost config
        end
    end.

(** [NewSSHClient]: decode the payload, then connect. *)
Definition NewSSHClient (data : string) : M W (option Client * option error) :=
  match json_Unmarshal data with
  | inr err => ret (None, Some (ErrorWrap err "Cannot parse credentials"))
  | inl kc => connectConfig kc
  end.

(** *** Vocabulary for the statements about NewSSHClient *)

(** The payload passes the checks that come before the authentication
    material is looked at: user name, host, known hosts. *)
Definition well_formed (kc : Config) : bool :=
  negb (String.eqb (Username kc) "")
  && negb (String.eqb (RemoteHostIP kc) "")
  && isValidIPv4 (RemoteHostIP kc)
  && (if negb (String.eqb (KnownHosts kc) "")
      then match knownhosts_New (KnownHosts kc) with
           | inl _ => true
           | inr _ => false
           end
      else true).

(** The address that is dialled: host, colon, port (22 when absent). *)
Definition dialAddress (kc : Config) : string :=
  RemoteHostIP kc ++ ":"
  ++ (if String.eqb (RemoteHostPort kc) "" then "22" else RemoteHostPort kc).

(** The signer that the private key of the payload gives, nil when the
    key does not parse. *)
Definition parsedSigner (kc : Config) : option Signer :=
  match ssh_ParsePrivateKey (fst (base64_DecodeString (PrivateKey kc))) with
  | inl signer => Some signer
  | inr _ => None
  end.

(** The methods the switch on the authentication material settles on. *)
Definition chosenAuth (kc : Config) : option (list AuthMethod) :=
  if negb (String.eqb (PrivateKey kc) "") then Some [PublicKeys (parsedSigner kc)]
  else if negb (String.eqb (Password kc) "") then Some [PasswordAuth (Password kc)]
  else None.

(** The host key callback of the payload, when the known hosts are
    accepted. *)
Definition chosenCallback (kc : Config) : HostKeyCallback + error :=
  if negb (String.eqb (KnownHosts kc) "") then knownhosts_New (KnownHosts kc)
  else inl InsecureIgnoreHostKey.

End Connect.

End SSHClient.

(* ===================================================================== *)
(** ** Script runner (ssh.go, ExecuteScript) *)
(* ===================================================================== *)

Module Runner.

Definition hex_digit (n : nat) : ascii :=
  match get n "0123456789abcdef" with
  | Some c => c
  | None => "0"%char
  end.

(** [hex.EncodeToString]. *)
Fixpoint hex_EncodeToString (bs : list Byte.byte) : string :=
  match bs with
  | [] => EmptyString
  | b :: bs' =>
      let n := Byte.to_nat b in
      String (hex_digit (n / 16))
        (String (hex_digit (n mod 16)) (hex_EncodeToString bs'))
  end.

(** The commands that a trace runs on the remote host, in order. *)
Definition runs (tr : list Event) : list string :=
  flat_map (fun ev => match ev with
                      | EvSessionRun cmd => [cmd]
                      | _ => []
                      end) tr.

Section Execute.
Context {W : Type} `{World W}.
Local Open Scope run_scope.

(** [randomFileName].  The branch that panics when the random source
    fails is outside the model: [rand_Read] always delivers. *)
Definition randomFileName (length : nat) : M W string :=
  bytes <- call (EvRandRead length) (rand_Read length) ;;
  ret ("tmp." ++ hex_EncodeToString bytes).

Definition closeSession (session : Session) : M W unit :=
  _ <- call EvSessionClose (session_Close session) ;;
  ret tt.

(** [sendFile].  The deferred calls run, last deferred first, on every
    return that follows their [defer]. *)
Definition sendFile (client : Client) (fileContent remotePath : string)
    : M W (option error) :=
  r <- call EvNewSession (client_NewSession client) ;;
  match r with
  | inr err => ret (Some err)
  | inl session =>
      r <- call EvSftpNewClient (sftp_NewClient client) ;;
      match r with
      | inr err => closeSession session ;;; ret (Some err)
      | inl sftpClient =>
          r <- call (EvSftpCreate remotePath) (sftp_Create sftpClient remotePath) ;;
          match r with
          | inr err =>
              _ <- call EvSessionClose (session_Close session) ;;
              closeSession session ;;;
              ret (Some (ErrorWrap err "Failed to create remote file"))
          | inl remoteFile =>
              w <- call (EvFileWrite fileContent)
                        (file_WriteTo remoteFile fileContent) ;;
              _ <- call EvFileClose (file_Close remoteFile) ;;
              _ <- call EvSessionClose (session_Close session) ;;
              closeSession session ;;;
              match w with
              | Some err =>
                  ret (Some (ErrorWrap err "Failed to write to remote file"))
              | None => ret None
              end
          end
      end
  end.

(** [cleanUpTempFile]. *)
Definition cleanUpTempFile (client : Client) (tmpFile : string)
    : M W (option error) :=
  r <- call EvNewSession (client_NewSession client) ;;
  match r with
  | inr err => ret (Some err)
  | inl session =>
      let cmd := "rm -f " ++ tmpFile in
      r <- call (EvSessionRun cmd) (session_Run session cmd) ;;
      closeSession session ;;;
      ret (snd r)
  end.

(** [ExecuteScript]: the returned triple is (stdout, stderr, err). *)
Definition ExecuteScript (client : Client) (sc : string) (vars : list Var)
    (suEnabled : bool) : M W (string * string * option error) :=
  let sc := ReplaceVariables sc vars in
  name <- randomFileName 8 ;;
  let remoteFile := "/tmp/" ++ name in
  sent <- sendFile client sc remoteFile ;;
  match sent with
  | Some err =>
      ret ("", "", Some (ErrorWrap err "Failed to send script to remote host"))
  | None =>
      let cmdExec := "chmod +x " ++ remoteFile in
      let cmd := if suEnabled then "sudo " else "" in
      let cmd := cmdExec ++ " && " ++ cmd ++ remoteFile in
      r <- call EvNewSession (client_NewSession client) ;;
      match r with
      | inr err =>
          logError err "Failed to create session" ;;;
          ret ("", "", Some (ErrorWrap err "Failed to create session"))
      | inl session =>
          r <- call (EvSessionRun cmd) (session_Run session cmd) ;;
          let '(stdoutBuf, stderrBuf, rerr) := r in
          match rerr with
          | Some err =>
              closeSession session ;;;
              ret ("", stderrBuf, Some err)
          | None =>
              cerr <- cleanUpTempFile client remoteFile ;;
              match cerr with
              | Some err => logError err "Failed to clean up temporary file"
              | None => ret tt
              end ;;;
              logInfo ("Script executed, len(stdout): "
                       ++ Z_to_string (Z.of_nat (String.length stdoutBuf))
                       ++ ", len(stderr): "
                       ++ Z_to_string (Z.of_nat (String.length stderrBuf))) [] ;;;
              closeSession session ;;;
              ret (stdoutBuf, stderrBuf, None)
          end
      end
  end.

(** *** Vocabulary for the statements about ExecuteScript *)

(** The path of the file that a call stages, from the world it starts
    in, and the command that runs it. *)
Definition stagedFile (w : W) : string :=
  "/tmp/" ++ "tmp." ++ hex_EncodeToString (fst (rand_Read 8 w)).

Definition runCommand (remoteFile : string) (suEnabled : bool) : string :=
  ("chmod +x " ++ remoteFile) ++ " && "
  ++ (if suEnabled then "sudo " else "") ++ remoteFile.

End Execute.

End Runner.

(* ===================================================================== *)
(** ** Script controller (script.go, Observe) *)
(* ===================================================================== *)

Module Controller.
Import Runner.

(** *** Conditions of crossplane-runtime (package xpv1) *)

Record Condition := mkCondition {
  Type_ : string;
  Status_ : string;
  Reason : string;
  Message : string
}.

Definition TypeReady : string := "Ready".
Definition TypeSynced : string := "Synced".
Definition ReasonDeleting : string := "Deleting".

Definition Deleting : Condition :=
  mkCondition TypeReady "False" ReasonDeleting "".

Definition Available : Condition :=
  mkCondition TypeReady "True" "Available" "".

Definition ReconcileError (err : error) : Condition :=
  mkCondition TypeSynced "False" "ReconcileError" (error_message err).

Definition Condition_eqb (a b : Condition) : bool :=
  String.eqb (Type_ a) (Type_ b) && String.eqb (Status_ a) (Status_ b)
  && String.eqb (Reason a) (Reason b) && String.eqb (Message a) (Message b).

(** [GetCondition]: the condition of the given type, or one of unknown
    status when there is none. *)
Fixpoint GetCondition (conditions : list Condition) (ct : string) : Condition :=
  match conditions with
  | [] => mkCondition ct "Unknown" "" ""
  | c :: rest => if String.eqb (Type_ c) ct then c else GetCondition rest ct
  end.

(** [SetConditions] for one condition: every condition of the same type
    is replaced by the new one; when there is none, the new one is
    appended. *)
Definition SetCondition (conditions : list Condition) (new : Condition)
    : list Condition :=
  if existsb (fun c => String.eqb (Type_ c) (Type_ new)) conditions
  then map (fun c => if String.eqb (Type_ c) (Type_ new) then new else c)
           conditions
  else (conditions ++ [new])%list.

(** *** The Script resource *)

(** Modelled from the spec: the declaration of the Script type with the
    fields the controller reads and writes is missing from the sources (the
    file of package v1alpha1 that is present is the unfilled template).
    The script bundle has four script bodies, a list of variables and the
    [sudoEnabled] flag (spec, section 6); the fields are named as the
    controller names them. *)
Record ScriptParameters := mkScriptParameters {
  Variables : list Var;
  InitScript : string;
  StatusCheckScript : string;
  UpdateScript : string;
  CleanupScript : string;
  SudoEnabled : bool
}.

(** Modelled from the spec: the observation output has the standard output,
    the standard error and the exit code of the last run (spec, section 6);
    the fields are named as the controller names them. *)
Record ScriptObservation := mkScriptObservation {
  Stdout : string;
  Stderr : string;
  StatusCode : Z
}.

(** Modelled from the spec: the Script object, reduced to its name, the
    parameters, the observation and the conditions of its status. *)
Record Script := mkScript {
  ObjectName : string;
  ForProvider : ScriptParameters;
  AtProvider : ScriptObservation;
  Conditions : list Condition
}.

Definition withAtProvider (cr : Script) (o : ScriptObservation) : Script :=
  mkScript (ObjectName cr) (ForProvider cr) o (Conditions cr).

Definition SetConditions (cr : Script) (c : Condition) : Script :=
  mkScript (ObjectName cr) (ForProvider cr) (AtProvider cr)
           (SetCondition (Conditions cr) c).

(** [resource.Managed]: a Script or a resource of another kind. *)
Inductive Managed : Type :=
| ScriptResource (cr : Script)
| OtherResource (name : string).

Definition GetName (mg : Managed) : string :=
  match mg with
  | ScriptResource cr => ObjectName cr
  | OtherResource name => name
  end.

(** [managed.ExternalObservation]; [ConnectionDetails] is [None] for nil. *)
Record ExternalObservation := mkExternalObservation {
  ResourceExists : bool;
  ResourceUpToDate : bool;
  ConnectionDetails : option (list (string * string))
}.

Definition emptyObservation : ExternalObservation :=
  mkExternalObservation false false None.

(** [external]: [service] is [None] for the nil interface. *)
Record external := mkExternal { service : option Client }.

(** How a call ends: it returns, or it panics. *)
Inductive Ending (A : Type) : Type :=
| Returns (a : A)
| Panics (msg : string).
Arguments Returns {A} _.
Arguments Panics {A} _.

Definition errNotScript : string :=
  "managed resource is not a Script custom resource".

Definition isBeingDeleted (cr : Script) : bool :=
  let cd := GetCondition (Conditions cr) (Type_ Deleting) in
  String.eqb (Type_ cd) TypeReady && String.eqb (Status_ cd) "False"
  && String.eqb (Reason cd) ReasonDeleting.

Section Observe.
Context {W : Type} `{World W}.
Local Open Scope run_scope.

(** [Observe] (lines 139-212).  The result is the resource as the call
    leaves it, the observation and the error. *)
Definition Observe (c : external) (mg : Managed)
    : M W (Ending (Managed * ExternalObservation * option error)) :=
  logInfo ("[" ++ GetName mg ++ "] Observing...") [] ;;;
  match mg with
  | OtherResource _ =>
      ret (Returns (mg, emptyObservation, Some (ErrorNew errNotScript)))
  | ScriptResource cr =>
      if isBeingDeleted cr then
        logInfo ("[" ++ GetName mg
                 ++ "] Observing failed. Resource is being deleted.") [] ;;;
        ret (Returns (mg, mkExternalObservation false false None, None))
      else if negb (String.eqb (StatusCheckScript (ForProvider cr)) "") then
        match service c with
        | None => ret (Panics "interface conversion: interface is nil")
        | Some client =>
            r <- ExecuteScript client (StatusCheckScript (ForProvider cr))
                   (Variables (ForProvider cr)) (SudoEnabled (ForProvider cr)) ;;
            let '(stdout, stderr, rerr) := r in
            match rerr with
            | Some err =>
                exitStatus <-
                  match asExitError err with
                  | Some status => ret status
                  | None =>
                      logInfo ("[" ++ GetName mg
                               ++ "] Unable to detect exit code") [] ;;;
                      ret 1%Z
                  end ;;
                logInfo ("[" ++ GetName mg ++ "] Observing failed. Exit code: "
                         ++ Z_to_string exitStatus) [] ;;;
                let cr := withAtProvider cr
                            (mkScriptObservation stdout stderr exitStatus) in
                if (exitStatus =? 1)%Z then
                  let werr := ErrorWrap err "Script failed with exit code 1." in
                  let cr := SetConditions cr (ReconcileError werr) in
                  ret (Returns (ScriptResource cr, emptyObservation, Some werr))
                else if (exitStatus =? 100)%Z then
                  ret (Returns (ScriptResource cr,
                                mkExternalObservation false false None, None))
                else
                  ret (Returns (ScriptResource cr,
                                mkExternalObservation true false None, None))
            | None =>
                logInfo ("[" ++ GetName mg
                         ++ "] Observing was [okay]. Update the status.") [] ;;;
                let cr := withAtProvider cr
                            (mkScriptObservation stdout stderr
                               (StatusCode (AtProvider cr))) in
                let cr := SetConditions cr Available in
                ret (Returns (ScriptResource cr,
                              mkExternalObservation true true None, None))
            end
        end
      else
        logInfo ("[" ++ GetName mg
                 ++ "] Observing, no status check script.") [] ;;;
        ret (Returns (mg, mkExternalObservation true true (Some []), None))
  end.

End Observe.

(** *** Reading the result of Observe *)

(** The states of the specification's state machine (section 4.3). *)
Inductive Classification : Type :=
| Unknown
| Absent
| Ready
| NeedsRemediation (code : Z)
| Fatal.

(** What one run of the status-check script came to: the exit status of a
    process that ran and terminated, or no exit status at all. *)
Inductive Outcome : Type :=
| Exited (status : Z)
| NoExitStatus.

(** The outcome that the result of [ExecuteScript] stands for: no error is
    exit status 0, an exit error carries its status, every other error is an
    execution-level failure. *)
Definition outcome_of (rerr : option error) : Outcome :=
  match rerr with
  | None => Exited 0
  | Some err =>
      match asExitError err with
      | Some status => Exited status
      | None => NoExitStatus
      end
  end.

(** Modelled from the spec: the dispatch of the reconciler that calls
    [Observe] is not part of the sources.  Section 4.3: an error is
    surfaced and nothing runs; "does not exist" makes init run next;
    "exists but not up to date" makes update run next. *)
Inductive Action : Type := NoAction | RunInit | RunUpdate.

Definition nextAction (obs : ExternalObservation) (err : option error) : Action :=
  match err with
  | Some _ => NoAction
  | None =>
      if negb (ResourceExists obs) then RunInit
      else if ResourceUpToDate obs then NoAction
      else RunUpdate
  end.

(** The classification table as the specification words it. *)
Definition spec_classification (o : Outcome) : Classification :=
  match o with
  | Exited code =>
      if (code =? 0)%Z then Ready
      else if (code =? 1)%Z then Fatal
      else if (code =? 100)%Z then Absent
      else NeedsRemediation code
  | NoExitStatus => Unknown
  end.

(** The classification table the code implements. *)
Definition code_classification (o : Outcome) : Classification :=
  match o with
  | Exited code =>
      if (code =? 0)%Z then Ready
      else if (code =? 1)%Z then Fatal
      else if (code =? 100)%Z then Absent
      else NeedsRemediation code
  | NoExitStatus => Fatal
  end.

(** What the reconciler does next for a classification (section 4.3). *)
Definition action_for (c : Classification) : Action :=
  match c with
  | Absent => RunInit
  | NeedsRemediation _ => RunUpdate
  | Unknown | Ready | Fatal => NoAction
  end.

Definition is_exit_code_1_error (err : error) : bool :=
  match err with
  | ErrorWrap _ msg => String.eqb msg "Script failed with exit code 1."
  | _ => false
  end.

(** The classification that a result of [Observe] signals to its caller:
    an error that reports exit code 1 is [Fatal], any other error is
    [Unknown]; without an error, "does not exist" is [Absent], "exists and
    is up to date" is [Ready], and "exists but is not up to date" is
    [NeedsRemediation] with the status code left in the resource. *)
Definition classification_of
    (res : Managed * ExternalObservation * option error) : Classification :=
  let '(mg, obs, err) := res in
  match err with
  | Some e => if is_exit_code_1_error e then Fatal else Unknown
  | None =>
      if negb (ResourceExists obs) then Absent
      else if ResourceUpToDate obs then Ready
      else NeedsRemediation
             match mg with
             | ScriptResource cr => StatusCode (AtProvider cr)
             | OtherResource _ => 0
             end
  end.

End Controller.

(* ===================================================================== *)
(** ** A simulated world, to run the code on concrete inputs *)
(* ===================================================================== *)

Module Sim.

(** The network answers the successive dials with [sim_dials] (and refuses
    once they are used up); the remote host keeps its files in [sim_files];
    running a staged script gives [sim_script]; running [rm -f] removes the
    file, unless [sim_rm] is an error. *)
Record SimWorld := mkSim {
  sim_dials : list (Client + error);
  sim_random : list Byte.byte;
  sim_files : list (string * string);
  sim_created : string;
  sim_script : string * string * option error;
  sim_rm : option error
}.

Definition remove_file (path : string) (fs : list (string * string))
    : list (string * string) :=
  filter (fun f => negb (String.eqb (fst f) path)) fs.

Definition write_file (path content : string) (fs : list (string * string))
    : list (string * string) :=
  (remove_file path fs ++ [(path, content)])%list.

Definition has_file (path : string) (fs : list (string * string)) : bool :=
  existsb (fun f => String.eqb (fst f) path) fs.

Definition sim_Dial (network addr : string) (config : ClientConfig)
    (w : SimWorld) : (Client + error) * SimWorld :=
  match sim_dials w with
  | [] => (inr (ErrorNew "dial tcp: connection refused"), w)
  | r :: rest =>
      (r, mkSim rest (sim_random w) (sim_files w) (sim_created w)
               (sim_script w) (sim_rm w))
  end.

Definition sim_Run (session : Session) (cmd : string) (w : SimWorld)
    : (string * string * option error) * SimWorld :=
  if prefix "rm -f " cmd then
    match sim_rm w with
    | Some err => (("", "", Some err), w)
    | None =>
        (("", "", None),
         mkSim (sim_dials w) (sim_random w)
               (remove_file (substring 6 (String.length cmd - 6) cmd)
                            (sim_files w))
               (sim_created w) (sim_script w) (sim_rm w))
    end
  else (sim_script w, w).

Definition sim_Create (c : SftpClient) (path : string) (w : SimWorld)
    : (RemoteFile + error) * SimWorld :=
  (inl (file_handle 0),
   mkSim (sim_dials w) (sim_random w) (write_file path "" (sim_files w))
         path (sim_script w) (sim_rm w)).

Definition sim_WriteTo (f : RemoteFile) (content : string) (w : SimWorld)
    : option error * SimWorld :=
  (None,
   mkSim (sim_dials w) (sim_random w)
         (write_file (sim_created w) content (sim_files w))
         (sim_created w) (sim_script w) (sim_rm w)).

(** The payloads are decoded by table; a key text with ['!'] is not
    base64, and an empty key does not parse. *)
Definition sim_Unmarshal (payloads : list (string * Config)) (data : string)
    : Config + error :=
  match find (fun p => String.eqb (fst p) data) payloads with
  | Some p => inl (snd p)
  | None => inr (ErrorNew "invalid character looking for beginning of value")
  end.

Definition sim_DecodeString (s : string) : list Byte.byte * option error :=
  if Contains s "!" then ([], Some (ErrorNew "illegal base64 data at input byte 0"))
  else (list_byte_of_string s, None).

Definition sim_ParsePrivateKey (bs : list Byte.byte) : Signer + error :=
  match bs with
  | [] => inr (ErrorNew "ssh: no key found")
  | _ => inl (signer_of_key bs)
  end.

Definition simWorld (payloads : list (string * Config)) : World SimWorld := {|
  json_Unmarshal := sim_Unmarshal payloads;
  knownhosts_New := fun files => inl (KnownHostsCallback files);
  base64_DecodeString := sim_DecodeString;
  ssh_ParsePrivateKey := sim_ParsePrivateKey;
  ssh_Dial := sim_Dial;
  time_Sleep := fun _ w => (tt, w);
  rand_Read := fun n w => (firstn n (sim_random w), w);
  client_NewSession := fun _ w => (inl (session_handle 0), w);
  session_Run := sim_Run;
  session_Close := fun _ w => (None, w);
  sftp_NewClient := fun _ w => (inl (sftp_handle 0), w);
  sftp_Create := sim_Create;
  file_WriteTo := sim_WriteTo;
  file_Close := fun _ w => (None, w)
|}.

(** A remote host on which a staged script gives [result]. *)
Definition host (result : string * string * option error) : SimWorld :=
  mkSim [] [Byte.x01; Byte.x23; Byte.x45; Byte.x67;
            Byte.x89; Byte.xab; Byte.xcd; Byte.xef]
        [] "" result None.

(** The same host, on which [rm -f] fails with [err]. *)
Definition host_failing_rm (result : string * string * option error)
    (err : error) : SimWorld :=
  mkSim [] [Byte.x01; Byte.x23; Byte.x45; Byte.x67;
            Byte.x89; Byte.xab; Byte.xcd; Byte.xef]
        [] "" result (Some err).

(** A network that answers the successive dials with [answers]. *)
Definition network (answers : list (Client + error)) : SimWorld :=
  mkSim answers [] [] "" ("", "", None) None.

Definition sampleConfig (password privateKey : string) : Config :=
  mkConfig "10.29.30.5" "22" "ubuntu" password privateKey "".

(** Credential payloads, by name. *)
Definition payloads : list (string * Config) :=
  [("password-only", sampleConfig "secret" "");
   ("key-only", sampleConfig "" "a2V5");
   ("both", sampleConfig "secret" "a2V5");
   ("neither", sampleConfig "" "");
   ("bad-key", sampleConfig "" "not base64!")].

Definition refused (n : nat) : Client + error :=
  inr (ErrorNew ("dial tcp 10.29.30.5:22: connection refused, try "
                 ++ Z_to_string (Z.of_nat n))).

(** The error of a run that ends without an exit status. *)
Definition lost_connection : error :=
  ErrorNew "wait: remote command exited without exit status or exit signal".

Definition sampleScript (statusCheck : string) (conditions : list Controller.Condition)
    : Controller.Script :=
  Controller.mkScript "sample-script"
    (Controller.mkScriptParameters
       [mkVar "VPN_SERVER_URL" "199.199.199.10"]
       "touch /tmp/new_file.txt" statusCheck "" "rm /tmp/new_file.txt" false)
    (Controller.mkScriptObservation "" "" 0)
    conditions.

End Sim.
(* ===================================================================== *)
(** ** Create, Update and Delete (script.go) *)
(* ===================================================================== *)

Module Lifecycle.
Import Runner Controller.

(** [managed.ExternalCreation] and [managed.ExternalUpdate]: both have the
    one field [ConnectionDetails], [None] for nil. *)
Record ExternalCreation := mkExternalCreation {
  CreationConnectionDetails : option (list (string * string))
}.

Record ExternalUpdate := mkExternalUpdate {
  UpdateConnectionDetails : option (list (string * string))
}.

Definition is_log (ev : Event) : bool :=
  match ev with
  | EvLogInfo _ _ | EvLogError _ _ => true
  | _ => false
  end.

(** The events of a trace that are calls to the outside, not log lines. *)
Definition outside (tr : list Event) : list Event :=
  filter (fun ev => negb (is_log ev)) tr.

Section Lifecycle.
Context {W : Type} `{World W}.
Local Open Scope run_scope.

(** [Create] (lines 214-237). *)
Definition Create (c : external) (mg : Managed)
    : M W (Ending (Managed * ExternalCreation * option error)) :=
  logInfo ("[" ++ GetName mg ++ "] Creating init script...") [] ;;;
  match mg with
  | OtherResource _ =>
      ret (Returns (mg, mkExternalCreation None, Some (ErrorNew errNotScript)))
  | ScriptResource cr =>
      if negb (String.eqb (InitScript (ForProvider cr)) "") then
        match service c with
        | None => ret (Panics "interface conversion: interface is nil")
        | Some client =>
            r <- ExecuteScript client (InitScript (ForProvider cr))
                   (Variables (ForProvider cr)) (SudoEnabled (ForProvider cr)) ;;
            match snd r with
            | Some err =>
                let cr := SetConditions cr
                            (ReconcileError (ErrorWrap err "Init Script failed.")) in
                ret (Returns (ScriptResource cr, mkExternalCreation None, Some err))
            | None =>
                ret (Returns (mg, mkExternalCreation (Some []), None))
            end
        end
      else ret (Returns (mg, mkExternalCreation (Some []), None))
  end.

(** [Update] (lines 239-262). *)
Definition Update (c : external) (mg : Managed)
    : M W (Ending (Managed * ExternalUpdate * option error)) :=
  logInfo ("[" ++ GetName mg ++ "] Updating resource...") [] ;;;
  match mg with
  | OtherResource _ =>
      ret (Returns (mg, mkExternalUpdate None, Some (ErrorNew errNotScript)))
  | ScriptResource cr =>
      if negb (String.eqb (UpdateScript (ForProvider cr)) "") then
        match service c with
        | None => ret (Panics "interface conversion: interface is nil")
        | Some client =>
            r <- ExecuteScript client (UpdateScript (ForProvider cr))
                   (Variables (ForProvider cr)) (SudoEnabled (ForProvider cr)) ;;
            match snd r with
            | Some err =>
                let cr := SetConditions cr
                            (ReconcileError (ErrorWrap err "Update Script failed.")) in
                ret (Returns (ScriptResource cr, mkExternalUpdate None, Some err))
            | None =>
                ret (Returns (mg, mkExternalUpdate (Some []), None))
            end
        end
      else ret (Returns (mg, mkExternalUpdate (Some []), None))
  end.

(** [Delete] (lines 264-283); it leaves the resource as it is. *)
Definition Delete (c : external) (mg : Managed)
    : M W (Ending (option error)) :=
  logInfo ("[" ++ GetName mg ++ "] Deleting...") [] ;;;
  match mg with
  | OtherResource _ => ret (Returns (Some (ErrorNew errNotScript)))
  | ScriptResource cr =>
      if negb (String.eqb (CleanupScript (ForProvider cr)) "") then
        match service c with
        | None => ret (Panics "interface conversion: interface is nil")
        | Some client =>
            r <- ExecuteScript client (CleanupScript (ForProvider cr))
                   (Variables (ForProvider cr)) (SudoEnabled (ForProvider cr)) ;;
            match snd r with
            | Some err =>
                logInfo ("[" ++ GetName mg ++ "] Deleting failed.") [] ;;;
                ret (Returns (Some err))
            | None => ret (Returns None)
            end
        end
      else ret (Returns None)
  end.

End Lifecycle.

End Lifecycle.

(* ===================================================================== *)
(** ** Connect (script.go) *)
(* ===================================================================== *)

Module Connector.
Import Controller.

Definition errTrackPCUsage : string := "cannot track ProviderConfig usage".
Definition errGetPC : string := "cannot get ProviderConfig".
Definition errGetCreds : string := "cannot get credentials".
Definition errNewClient : string := "cannot create new Service".

(** The cluster the connector talks to: the usage tracker, the API client
    that fetches the provider configuration by name, and the credential
    extractor of crossplane-runtime.  [PC] is the ProviderConfig type, whose
    declaration is missing from the sources and which is only passed on:
    the extractor is given the configuration and reads the credential
    source and selectors off it. *)
Class Cluster (W PC : Type) := {
  usage_Track : Managed -> W -> option error * W;
  kube_Get : string -> W -> (PC + error) * W;
  CommonCredentialExtractor : PC -> W -> (string + error) * W
}.

(** A call to the cluster; the trace of events keeps to the SSH side. *)
Definition cluster {W A} (op : W -> A * W) : M W A :=
  fun s => let (a, w') := op (world s) in (a, mkSt w' (trace s)).

(** [connector]: the function that makes the client from the credentials.
    The tracker and the API client are the cluster. *)
Record connector (W : Type) := mkConnector {
  newServiceFn : string -> M W (option Client * option error)
}.
Arguments mkConnector {W} _.
Arguments newServiceFn {W} _ _.

Section Connect.
Context {W PC : Type} `{World W} `{Cluster W PC}.
Local Open Scope run_scope.

(** [Connect] (lines 93-130).  [providerConfigRef] is the name that
    [cr.GetProviderConfigReference()] gives, which the Script record does
    not carry.  The service of the result is the client that
    [newServiceFn] returned. *)
Definition Connect (c : connector W) (mg : Managed) (providerConfigRef : string)
    : M W (option external * option error) :=
  logInfo ("[" ++ GetName mg ++ "] Creating connection...") [] ;;;
  match mg with
  | OtherResource _ => ret (None, Some (ErrorNew errNotScript))
  | ScriptResource cr =>
      t <- cluster (usage_Track mg) ;;
      match t with
      | Some err => ret (None, Some (ErrorWrap err errTrackPCUsage))
      | None =>
          g <- cluster (kube_Get providerConfigRef) ;;
          match g with
          | inr err => ret (None, Some (ErrorWrap err errGetPC))
          | inl pc =>
              if isBeingDeleted cr then
                logInfo ("[" ++ GetName mg
                         ++ "] Resource is being deleted. Skip the connection.") [] ;;;
                ret (Some (mkExternal None), None)
              else
                d <- cluster (CommonCredentialExtractor pc) ;;
                match d with
                | inr err => ret (None, Some (ErrorWrap err errGetCreds))
                | inl data =>
                    r <- newServiceFn c data ;;
                    match r with
                    | (_, Some err) =>
                        ret (None, Some (ErrorWrap err errNewClient))
                    | (svc, None) =>
                        logInfo ("[" ++ GetName mg
                                 ++ "] Creating connection [okay]") [] ;;;
                        ret (Some (mkExternal svc), None)
                    end
                end
          end
      end
  end.

(** The connector that [Setup] installs (lines 64-67): the client is made
    by [NewSSHClient]. *)
Definition setupConnector : connector W :=
  mkConnector (SSHClient.NewSSHClient).

End Connect.

End Connector.

(* ===================================================================== *)
(** ** The earlier revision of the controller (script.go, second part) *)
(* ===================================================================== *)

Module Earlier.
Import Runner Controller Lifecycle.

Definition Unavailable : Condition :=
  mkCondition TypeReady "False" "Unavailable" "".

Definition withStatusCode (cr : Script) (code : Z) : Script :=
  withAtProvider cr
    (mkScriptObservation (Stdout (AtProvider cr)) (Stderr (AtProvider cr)) code).

Section Earlier.
Context {W : Type} `{World W}.
Local Open Scope run_scope.

(** [Observe] of the earlier revision (lines 424-489). *)
Definition Observe (c : external) (mg : Managed)
    : M W (Ending (Managed * ExternalObservation * option error)) :=
  logInfo ("[" ++ GetName mg ++ "] Observing...") [] ;;;
  match mg with
  | OtherResource _ =>
      ret (Returns (mg, emptyObservation, Some (ErrorNew errNotScript)))
  | ScriptResource cr =>
      if isBeingDeleted cr then
        logInfo ("[" ++ GetName mg
                 ++ "] Observing failed. Resource is being deleted.") [] ;;;
        ret (Returns (mg, mkExternalObservation false false None, None))
      else if negb (String.eqb (StatusCheckScript (ForProvider cr)) "") then
        match service c with
        | None => ret (Panics "interface conversion: interface is nil")
        | Some client =>
            r <- ExecuteScript client (StatusCheckScript (ForProvider cr))
                   (Variables (ForProvider cr)) (SudoEnabled (ForProvider cr)) ;;
            let '(stdout, stderr, rerr) := r in
            match rerr with
            | Some err =>
                logInfo ("[" ++ GetName mg
                         ++ "] Observing failed. File does not exist or is not ready yet.") [] ;;;
                let cr := withAtProvider cr
                            (mkScriptObservation stdout stderr 1) in
                ret (Returns (ScriptResource cr,
                              mkExternalObservation false false None, None))
            | None =>
                logInfo ("[" ++ GetName mg
                         ++ "] Observing was [okay]. Update the status.") [] ;;;
                let cr := withAtProvider cr
                            (mkScriptObservation stdout stderr
                               (StatusCode (AtProvider cr))) in
                let cr := SetConditions cr Available in
                ret (Returns (ScriptResource cr,
                              mkExternalObservation true true None, None))
            end
        end
      else
        logInfo ("[" ++ GetName mg
                 ++ "] Observing, no status check script.") [] ;;;
        ret (Returns (mg, mkExternalObservation true true (Some []), None))
  end.

(** [Create] of the earlier revision (lines 491-518). *)
Definition Create (c : external) (mg : Managed)
    : M W (Ending (Managed * ExternalCreation * option error)) :=
  logInfo ("[" ++ GetName mg ++ "] Creating init script...") [] ;;;
  match mg with
  | OtherResource _ =>
      ret (Returns (mg, mkExternalCreation None, Some (ErrorNew errNotScript)))
  | ScriptResource cr =>
      if negb (String.eqb (InitScript (ForProvider cr)) "") then
        match service c with
        | None => ret (Panics "interface conversion: interface is nil")
        | Some client =>
            r <- ExecuteScript client (InitScript (ForProvider cr))
                   (Variables (ForProvider cr)) (SudoEnabled (ForProvider cr)) ;;
            match snd r with
            | Some err =>
                let cr := SetConditions cr Unavailable in
                ret (Returns (ScriptResource cr, mkExternalCreation None, Some err))
            | None =>
                ret (Returns (ScriptResource (withStatusCode cr 0),
                              mkExternalCreation (Some []), None))
            end
        end
      else ret (Returns (mg, mkExternalCreation (Some []), None))
  end.

(** [Update] of the earlier revision (lines 520-527): it does nothing. *)
Definition Update (c : external) (mg : Managed)
    : M W (Ending (Managed * ExternalUpdate * option error)) :=
  ret (Returns (mg, mkExternalUpdate (Some []), None)).

End Earlier.

End Earlier.

(* ===================================================================== *)
(** ** Vocabulary for further statements *)
(* ===================================================================== *)

Module Vocabulary.

Definition is_sleep (ev : Event) : bool :=
  match ev with
  | EvSleep _ => true
  | _ => false
  end.

(** The pauses of a trace. *)
Definition sleeps (tr : list Event) : list Event := filter is_sleep tr.

(** The texts a trace writes to remote files, and the paths it creates. *)
Definition writes (tr : list Event) : list string :=
  flat_map (fun ev => match ev with
                      | EvFileWrite content => [content]
                      | _ => []
                      end) tr.

Definition creates (tr : list Event) : list string :=
  flat_map (fun ev => match ev with
                      | EvSftpCreate path => [path]
                      | _ => []
                      end) tr.

(** A character of a lower-case hexadecimal number. *)
Definition is_hex (c : ascii) : bool :=
  existsb (Ascii.eqb c) (list_ascii_of_string "0123456789abcdef").

Fixpoint all_chars (p : ascii -> bool) (s : string) : bool :=
  match s with
  | EmptyString => true
  | String c s' => p c && all_chars p s'
  end.

End Vocabulary.

(* ===================================================================== *)
(** ** The simulated cluster *)
(* ===================================================================== *)

Module SimCluster.
Import Controller Connector.

(** A cluster that answers the three calls with what it is given; the
    provider configuration is the name of a payload. *)
Definition simCluster (track : option error) (pc : string + error)
    (creds : string + error) : Cluster Sim.SimWorld string := {|
  usage_Track := fun _ w => (track, w);
  kube_Get := fun _ w => (pc, w);
  CommonCredentialExtractor := fun _ w => (creds, w)
|}.

End SimCluster.

(* ===================================================================== *)
(** * Properties *)
(* ===================================================================== *)

(** ** Facts about strings and the scan of ReplaceAll *)

Module StringFacts.

Lemma append_nil_r (s : string) : s ++ "" = s.
Proof. induction s as [|c s IH]; simpl; [reflexivity | now rewrite IH]. Qed.

Lemma append_assoc (a b c : string) : (a ++ b) ++ c = a ++ b ++ c.
Proof. induction a as [|x a IH]; simpl; [reflexivity | now rewrite IH]. Qed.

Lemma length_append (a b : string) :
  String.length (a ++ b) = String.length a + String.length b.
Proof. induction a as [|x a IH]; simpl; [reflexivity | now rewrite IH]. Qed.

Lemma prefix_cons (a b : ascii) (s1 s2 : string) :
  prefix (String a s1) (String b s2) = Ascii.eqb a b && prefix s1 s2.
Proof.
  simpl. destruct (ascii_dec a b) as [->|ne].
  - now rewrite Ascii.eqb_refl.
  - apply Ascii.eqb_neq in ne. now rewrite ne.
Qed.

Lemma prefix_nil_r (a : ascii) (s : string) : prefix (String a s) "" = false.
Proof. reflexivity. Qed.

Lemma prefix_append (p t : string) : prefix p (p ++ t) = true.
Proof.
  induction p as [|c p IH]; [now destruct t|].
  change ((String c p) ++ t) with (String c (p ++ t)).
  now rewrite prefix_cons, Ascii.eqb_refl, IH.
Qed.

Lemma prefix_inv (p s : string) :
  prefix p s = true -> exists t, s = p ++ t.
Proof.
  revert s. induction p as [|c p IH]; intros s Hp.
  - now exists s.
  - destruct s as [|d s]; [discriminate|].
    rewrite prefix_cons in Hp. apply andb_prop in Hp as [Hc Hs].
    apply Ascii.eqb_eq in Hc. subst d.
    destruct (IH s Hs) as [t ->]. now exists t.
Qed.


(** *** Passing over the matched characters *)

Lemma replace_from_skip (old new u t : string) :
  replace_from old new (String.length u) (u ++ t) = replace_from old new 0 t.
Proof. induction u as [|c u IH]; simpl; [reflexivity | exact IH]. Qed.


(** *** The equations of the scan *)

Lemma replace_match (c : ascii) (o new t : string) :
  replace_from (String c o) new 0 (String c o ++ t)
  = new ++ replace_from (String c o) new 0 t.
Proof.
  change (String c o ++ t) with (String c (o ++ t)).
  cbn [replace_from].
  change (String c (o ++ t)) with (String c o ++ t).
  rewrite prefix_append.
  cbn [String.length]. rewrite Nat.sub_1_r. cbn [Nat.pred].
  now rewrite replace_from_skip.
Qed.

Lemma replace_nomatch (old new : string) (c : ascii) (s : string) :
  prefix old (String c s) = false ->
  replace_from old new 0 (String c s) = String c (replace_from old new 0 s).
Proof. intros Hp. cbn [replace_from]. now rewrite Hp. Qed.



(** Induction along the scan: a text is empty, or starts with a match, or
    starts with a character that is copied. *)
Lemma scan_ind (old : string) (P : string -> Prop) :
  old <> "" ->
  P "" ->
  (forall t, P t -> P (old ++ t)) ->
  (forall c s, prefix old (String c s) = false -> P s -> P (String c s)) ->
  forall s, P s.
Proof.
  intros Hne Hnil Hmatch Hcopy s.
  remember (String.length s) as n eqn:Hn.
  revert s Hn. induction n as [n IH] using lt_wf_ind. intros s Hn.
  destruct s as [|c s]; [exact Hnil|].
  destruct (prefix old (String c s)) eqn:Hp.
  - destruct (prefix_inv _ _ Hp) as [t Ht]. rewrite Ht.
    apply Hmatch. apply (IH (String.length t)); [|reflexivity].
    subst n. rewrite Ht, length_append.
    destruct old; [congruence | simpl; lia].
  - apply Hcopy; [exact Hp|].
    apply (IH (String.length s)); [subst n; simpl; lia | reflexivity].
Qed.

(** *** ReplaceAll is Split followed by Join *)

Lemma split_from_nonempty (old : string) (s : string) (k : nat) :
  split_from old k s <> [].
Proof.
  revert k. induction s as [|c s IH]; intros k; [discriminate|].
  destruct k as [|k]; cbn [split_from]; [|apply IH].
  destruct (prefix old (String c s)); [discriminate|].
  specialize (IH 0). destruct (split_from old 0 s); [congruence | discriminate].
Qed.

Lemma Join_cons_head (c : ascii) (l : list string) (sep : string) :
  l <> [] -> Join (cons_head c l) sep = String c (Join l sep).
Proof.
  destruct l as [|p [|q ps]]; [congruence | reflexivity | reflexivity].
Qed.

Lemma Join_empty_cons (l : list string) (sep : string) :
  l <> [] -> Join ("" :: l) sep = sep ++ Join l sep.
Proof. destruct l as [|p ps]; [congruence | reflexivity]. Qed.

Lemma Join_split_from (old new s : string) (k : nat) :
  Join (split_from old k s) new = replace_from old new k s.
Proof.
  revert k. induction s as [|c s IH]; intros k; [reflexivity|].
  destruct k as [|k]; cbn [split_from replace_from]; [|apply IH].
  destruct (prefix old (String c s)).
  - rewrite Join_empty_cons by apply split_from_nonempty. now rewrite IH.
  - rewrite Join_cons_head by apply split_from_nonempty. now rewrite IH.
Qed.

Lemma ReplaceAll_Join_Split (s old new : string) :
  ReplaceAll s old new = Join (Split s old) new.
Proof.
  unfold ReplaceAll, Split. destruct old; [reflexivity|].
  symmetry. apply Join_split_from.
Qed.







(** *** Texts without an occurrence *)

Lemma replace_no_occurrence (old new s : string) :
  Contains s old = false -> replace_from old new 0 s = s.
Proof.
  induction s as [|c s IH]; [reflexivity|].
  cbn [Contains]. intros Hc. apply orb_false_elim in Hc as [Hp Hs].
  now rewrite replace_nomatch, IH.
Qed.

Lemma ReplaceAll_no_occurrence (s old new : string) :
  Contains s old = false -> ReplaceAll s old new = s.
Proof.
  unfold ReplaceAll. destruct old; [reflexivity|].
  apply replace_no_occurrence.
Qed.

Lemma Contains_occurs (s p : string) :
  Contains s p = true <-> exists a b, s = a ++ p ++ b.
Proof.
  split.
  - induction s as [|c s IH]; cbn [Contains]; intros Hc;
      apply orb_prop in Hc as [Hp|Hs]; try discriminate.
    + destruct (prefix_inv _ _ Hp) as [t Ht]. now exists "", t.
    + destruct (prefix_inv _ _ Hp) as [t Ht]. now exists "", t.
    + destruct (IH Hs) as (a & b & ->). now exists (String c a), b.
  - intros (a & b & ->). induction a as [|c a IH].
    + cbn [append]. destruct (p ++ b) eqn:E; cbn [Contains];
        rewrite <- E, prefix_append; reflexivity.
    + cbn [append Contains]. now rewrite IH, orb_true_r.
Qed.

End StringFacts.

(** ** Facts about placeholders and ReplaceVariables *)

Module SubstFacts.
Import StringFacts.

Lemma placeholder_unfold (n : string) :
  placeholder n = String "{" (String "{" (n ++ "}}")).
Proof. reflexivity. Qed.

Lemma placeholder_nonempty (n : string) : placeholder n <> "".
Proof. discriminate. Qed.

Lemma ReplaceAll_placeholder (s n v : string) :
  ReplaceAll s (placeholder n) v = replace_from (placeholder n) v 0 s.
Proof. reflexivity. Qed.

Lemma replace_match_placeholder (n v t : string) :
  replace_from (placeholder n) v 0 (placeholder n ++ t)
  = v ++ replace_from (placeholder n) v 0 t.
Proof. rewrite placeholder_unfold. apply replace_match. Qed.

Lemma ReplaceVariables_app (s : string) (V1 V2 : list Var) :
  ReplaceVariables s (V1 ++ V2) = ReplaceVariables (ReplaceVariables s V1) V2.
Proof.
  revert s. induction V1 as [|v V1 IH]; intros s; [reflexivity|].
  cbn [app ReplaceVariables]. apply IH.
Qed.


Lemma ReplaceAll_self (n v : string) :
  ReplaceAll (placeholder n) (placeholder n) v = v.
Proof.
  rewrite ReplaceAll_placeholder.
  rewrite <- (append_nil_r (placeholder n)) at 2.
  rewrite placeholder_unfold, replace_match. apply append_nil_r.
Qed.

(** *** Names without braces: placeholders do not overlap *)

Lemma prefix_nil_l (s : string) : prefix "" s = true.
Proof. now destruct s. Qed.

Lemma brace_free_cons (c : ascii) (s : string) :
  brace_free (String c s) = true ->
  Ascii.eqb c "{" = false /\ Ascii.eqb c "}" = false /\ brace_free s = true.
Proof.
  cbn [brace_free]. intros Hb.
  apply andb_prop in Hb as [Hb Hs]. apply andb_prop in Hb as [H1 H2].
  apply negb_true_iff in H1, H2. auto.
Qed.


Lemma name_then_open (n rest : string) :
  brace_free n = true -> prefix (n ++ "}}") (String "{" rest) = false.
Proof.
  destruct n as [|c n]; intros Hb; [reflexivity|].
  apply brace_free_cons in Hb as (H1 & _ & _).
  cbn [append]. now rewrite prefix_cons, H1.
Qed.

Lemma name_before_open (n : string) :
  brace_free n = true ->
  forall s rest,
    prefix (n ++ "}}") (s ++ String "{" (String "{" rest))
    = prefix (n ++ "}}") s.
Proof.
  induction n as [|c n IH]; intros Hb s rest.
  - cbn [append]. destruct s as [|x [|y s]]; [reflexivity | |].
    + cbn [append]. rewrite !prefix_cons. cbn. now rewrite !andb_false_r.
    + cbn [append]. rewrite !prefix_cons. now rewrite !prefix_nil_l.
  - apply brace_free_cons in Hb as (H1 & _ & Hn).
    cbn [append]. destruct s as [|x s].
    + cbn [append]. now rewrite prefix_cons, H1.
    + cbn [append]. rewrite !prefix_cons. now rewrite IH.
Qed.

(** A placeholder that does not start inside a non-empty text [a] cannot
    start in [a] and end in a placeholder that follows [a]. *)
Lemma no_straddle (n : string) (c : ascii) (s rest : string) :
  brace_free n = true ->
  prefix (placeholder n) (String c s ++ String "{" (String "{" rest))
  = prefix (placeholder n) (String c s).
Proof.
  intros Hb. rewrite placeholder_unfold. cbn [append].
  rewrite !prefix_cons. f_equal.
  destruct s as [|d s].
  - cbn [append]. rewrite prefix_cons, name_then_open by exact Hb.
    now rewrite andb_false_r.
  - cbn [append]. rewrite !prefix_cons. f_equal.
    apply (name_before_open n Hb).
Qed.







End SubstFacts.

(** ** Variable substitution *)

Module Substitution.
Import StringFacts SubstFacts.

(** One pass on a text that has the placeholder of the pass at a known
    place: the value is written there, and the pass works on the text
    before and on the text after. *)
Lemma replace_at_placeholder (n v a b : string) :
  brace_free n = true ->
  replace_from (placeholder n) v 0 (a ++ placeholder n ++ b)
  = replace_from (placeholder n) v 0 a ++ v
    ++ replace_from (placeholder n) v 0 b.
Proof.
  intros Hn. pattern a.
  apply (scan_ind (placeholder n)); [apply placeholder_nonempty | | |].
  - cbn [append replace_from]. apply replace_match_placeholder.
  - intros t IH. rewrite append_assoc, !replace_match_placeholder.
    now rewrite IH, append_assoc.
  - intros c t Hp IH.
    rewrite (replace_nomatch _ _ c t) by exact Hp.
    cbn [append]. rewrite replace_nomatch.
    + now rewrite IH.
    + rewrite <- Hp. rewrite (placeholder_unfold n) at 2. cbn [append].
      rewrite append_assoc.
      apply (no_straddle n c t (n ++ "}}" ++ b) Hn).
Qed.



(** C4, as the code has it.  The substitution is one pass per variable, in
    the order of the list.  Within a pass the value that is written is not
    read again, and nothing reads the values of the last variable again;
    but the text a pass leaves, values included, is what the later passes
    work on.  A placeholder inside a value is therefore replaced when its
    variable comes later in the list, and stays verbatim when its variable
    comes earlier. *)
Theorem ReplaceVariables_sequential_passes :
  (forall S V v,
      ReplaceVariables S (V ++ [v])
      = Join (Split (ReplaceVariables S V) (placeholder (Name v))) (Value v)) /\
  (forall n v a b,
      brace_free n = true ->
      ReplaceVariables (a ++ placeholder n ++ b) [mkVar n v]
      = ReplaceVariables a [mkVar n v] ++ v ++ ReplaceVariables b [mkVar n v]) /\
  (forall a b x,
      ReplaceVariables (placeholder a) [mkVar a (placeholder b); mkVar b x] = x) /\
  (forall a b x,
      Contains (placeholder a) (placeholder b) = false ->
      ReplaceVariables (placeholder a) [mkVar b x; mkVar a (placeholder b)]
      = placeholder b).
Proof.
  repeat split.
  - intros S V v. rewrite ReplaceVariables_app. cbn [ReplaceVariables].
    apply ReplaceAll_Join_Split.
  - intros n v a b Hn. cbn [ReplaceVariables Name Value].
    rewrite !ReplaceAll_placeholder. now apply replace_at_placeholder.
  - intros a b x. cbn [ReplaceVariables Name Value].
    now rewrite !ReplaceAll_self.
  - intros a b x Hc. cbn [ReplaceVariables Name Value].
    rewrite (ReplaceAll_no_occurrence (placeholder a) (placeholder b) x Hc).
    apply ReplaceAll_self.
Qed.

Lemma ReplaceVariables_sequential_passes_witness :
  ReplaceVariables ("echo " ++ placeholder "a" ++ " done") [mkVar "a" "{{a}}{{a}}"]
  = "echo {{a}}{{a}} done"
  /\ ReplaceVariables (placeholder "a") [mkVar "b" "x"; mkVar "a" (placeholder "b")]
     = "{{b}}".
Proof.
  split.
  - rewrite (proj1 (proj2 ReplaceVariables_sequential_passes));
      reflexivity.
  - apply (proj2 (proj2 (proj2 ReplaceVariables_sequential_passes))).
    reflexivity.
Defined.

(** C4 as stated fails: the value of [a] holds the placeholder of [b],
    [b] comes after [a] in the list, and the placeholder does not remain;
    a single pass would have left it. *)
Lemma ReplaceVariables_rescans_values :
  ReplaceVariables "{{a}}" [mkVar "a" "{{b}}"; mkVar "b" "x"] = "x"
  /\ spec_substitute "{{a}}" [mkVar "a" "{{b}}"; mkVar "b" "x"] = "{{b}}"
  /\ ReplaceVariables "{{a}}" [mkVar "a" "{{b}}"; mkVar "b" "x"]
     <> spec_substitute "{{a}}" [mkVar "a" "{{b}}"; mkVar "b" "x"].
Proof. repeat split. discriminate. Qed.

End Substitution.

(** ** Connecting *)

Module Connection.
Import SSHClient.

Lemma dials_app (a b : list Event) : dials (a ++ b) = (dials a ++ dials b)%list.
Proof. apply filter_app. Qed.

(** Unfolds the monad and settles the trace of the steps that do not dial. *)
Ltac run_steps :=
  cbv beta iota zeta delta [bind ret call logInfo logError emit];
  cbn [fst snd world trace];
  rewrite ?dials_app; cbn [dials filter is_dial]; rewrite ?app_nil_r.

Ltac settle :=
  repeat split; auto; intros; rewrite ?in_app_iff; cbn [In]; try tauto.

Section Facts.
Context {W : Type} `{World W}.

(** The retry loop and the check that follows it, against the answers of
    the network to the successive dials. *)
Lemma dialWithRetries_outcome (host : string) (cfg : ClientConfig) (s : St W) :
  let try := ssh_Dial "tcp" host cfg in
  let pause := fun w => snd (time_Sleep delayBetweenRetries w) in
  let r := dialWithRetries host cfg s in
  let d := EvDial "tcp" host cfg in
  (forall ev, In ev (trace s) -> In ev (trace (snd r))) /\
  match try (world s) with
  | (inl c, w1) =>
      fst r = (Some c, None) /\ world (snd r) = w1 /\
      dials (trace (snd r)) = (dials (trace s) ++ [d])%list
  | (inr e1, w1) =>
      match try (pause w1) with
      | (inl c, w2) =>
          fst r = (Some c, None) /\ world (snd r) = w2 /\
          dials (trace (snd r)) = (dials (trace s) ++ [d; d])%list
      | (inr e2, w2) =>
          match try (pause w2) with
          | (inl c, w3) =>
              fst r = (Some c, None) /\ world (snd r) = w3 /\
              dials (trace (snd r)) = (dials (trace s) ++ [d; d; d])%list
          | (inr e3, w3) =>
              fst r = (None, Some e3) /\ world (snd r) = w3 /\
              dials (trace (snd r)) = (dials (trace s) ++ [d; d; d])%list
          end
      end
  end.
Proof.
  cbv beta iota zeta delta
    [dialWithRetries dialLoop maxAttempts Nat.leb Nat.ltb bind call logInfo emit ret].
  cbn [world trace].
  destruct (ssh_Dial "tcp" host cfg (world s)) as [[c|e1] w1];
    cbn [fst snd world trace].
  { rewrite dials_app. settle. }
  destruct (time_Sleep delayBetweenRetries w1) as [[] w1'];
    cbn [fst snd world trace].
  destruct (ssh_Dial "tcp" host cfg w1') as [[c|e2] w2];
    cbn [fst snd world trace].
  { rewrite !dials_app. cbn [dials filter is_dial]. rewrite <- !app_assoc. settle. }
  destruct (time_Sleep delayBetweenRetries w2) as [[] w2'];
    cbn [fst snd world trace].
  destruct (ssh_Dial "tcp" host cfg w2') as [[c|e3] w3];
    cbn [fst snd world trace];
    rewrite !dials_app; cbn [dials filter is_dial]; rewrite <- !app_assoc;
    settle.
Qed.

Lemma authMethods_spec (kc : Config) (s : St W) :
  let r := authMethods kc s in
  fst r = chosenAuth kc /\
  world (snd r) = world s /\
  dials (trace (snd r)) = dials (trace s) /\
  (forall ev, In ev (trace s) -> In ev (trace (snd r))) /\
  (PrivateKey kc <> "" -> forall e,
     snd (base64_DecodeString (PrivateKey kc)) = Some e ->
     In (EvLogError e "Error decoding base64 private key") (trace (snd r))) /\
  (PrivateKey kc <> "" -> forall e,
     ssh_ParsePrivateKey (fst (base64_DecodeString (PrivateKey kc))) = inr e ->
     In (EvLogError e "Failed to parse private key") (trace (snd r))).
Proof.
  cbv zeta. unfold authMethods, chosenAuth, parsedSigner.
  destruct (String.eqb (PrivateKey kc) "") eqn:Ek; cbn [negb].
  - apply String.eqb_eq in Ek.
    destruct (negb (String.eqb (Password kc) "")); cbn [ret fst snd];
      repeat split; auto; intros; congruence.
  - destruct (base64_DecodeString (PrivateKey kc)) as [bytes derr].
    cbn [fst snd].
    destruct derr as [de|];
      destruct (ssh_ParsePrivateKey bytes) as [signer|pe];
      run_steps; settle;
      repeat match goal with
             | E : Some _ = Some _ |- _ => injection E as <-
             | E : inr _ = inr _ |- _ => injection E as <-
             | E : inl _ = inr _ |- _ => discriminate E
             | E : None = Some _ |- _ => discriminate E
             end; tauto.
Qed.

Lemma well_formed_inv (kc : Config) :
  well_formed kc = true ->
  String.eqb (Username kc) "" = false /\
  String.eqb (RemoteHostIP kc) "" = false /\
  isValidIPv4 (RemoteHostIP kc) = true /\
  exists cb, chosenCallback kc = inl cb.
Proof.
  unfold well_formed, chosenCallback. intros Hwf.
  apply andb_prop in Hwf as [Hwf Hk]. apply andb_prop in Hwf as [Hwf Hv].
  apply andb_prop in Hwf as [Hu Hh]. apply negb_true_iff in Hu, Hh.
  repeat split; trivial.
  destruct (negb (String.eqb (KnownHosts kc) "")); [|now eexists].
  destruct (knownhosts_New (KnownHosts kc)); [now eexists | discriminate].
Qed.

(** A payload that passes the checks and has authentication material
    reaches the loop, with nothing done before but logging. *)
Lemma connectConfig_connects (kc : Config) (s : St W) (methods : list AuthMethod) :
  well_formed kc = true -> chosenAuth kc = Some methods ->
  exists cb s1,
    chosenCallback kc = inl cb /\
    world s1 = world s /\
    dials (trace s1) = dials (trace s) /\
    (forall ev, In ev (trace s) -> In ev (trace s1)) /\
    (PrivateKey kc <> "" -> forall e,
       snd (base64_DecodeString (PrivateKey kc)) = Some e ->
       In (EvLogError e "Error decoding base64 private key") (trace s1)) /\
    (PrivateKey kc <> "" -> forall e,
       ssh_ParsePrivateKey (fst (base64_DecodeString (PrivateKey kc))) = inr e ->
       In (EvLogError e "Failed to parse private key") (trace s1)) /\
    connectConfig kc s
    = dialWithRetries (dialAddress kc)
        (mkClientConfig (Username kc) methods (Some cb)) s1.
Proof.
  intros Hwf Hauth.
  destruct (well_formed_inv kc Hwf) as (Hu & Hh & Hv & cb & Hcb).
  exists cb.
  unfold connectConfig. rewrite Hu, Hh, Hv. cbn [negb].
  unfold chosenCallback in Hcb. rewrite Hcb.
  unfold bind at 1.
  match goal with
  | |- context [(if String.eqb (RemoteHostPort kc) "" then ?a else ?b) s] =>
      set (s0 := (if String.eqb (RemoteHostPort kc) "" then a else b) s)
  end.
  assert (Hs0 : world (snd s0) = world s /\
                dials (trace (snd s0)) = dials (trace s) /\
                (forall ev, In ev (trace s) -> In ev (trace (snd s0))) /\
                RemoteHostIP kc ++ ":" ++ fst s0 = dialAddress kc).
  { subst s0. unfold dialAddress.
    destruct (String.eqb (RemoteHostPort kc) ""); run_steps; settle. }
  destruct s0 as [port s0']. cbn [fst snd] in Hs0.
  destruct Hs0 as (Hw0 & Hd0 & Hi0 & Haddr).
  unfold bind at 1.
  pose proof (authMethods_spec kc s0') as HA. cbv zeta in HA.
  destruct (authMethods kc s0') as [auth s1]. cbn [fst snd] in HA.
  destruct HA as (Ha & Hw1 & Hd1 & Hi1 & Hl1 & Hl2).
  rewrite Hauth in Ha. subst auth.
  exists s1. rewrite Haddr.
  repeat (split; [first [ assumption | congruence | now auto ] |]).
  reflexivity.
Qed.

(** Every return before the loop is an error, and nothing was dialled. *)
Lemma connectConfig_rejects (kc : Config) (s : St W) :
  well_formed kc = false \/ chosenAuth kc = None ->
  exists e,
    fst (connectConfig kc s) = (None, Some e) /\
    world (snd (connectConfig kc s)) = world s /\
    dials (trace (snd (connectConfig kc s))) = dials (trace s).
Proof.
  intros Hbad. unfold connectConfig.
  destruct (String.eqb (Username kc) "") eqn:Hu; [now eexists|].
  destruct (String.eqb (RemoteHostIP kc) "") eqn:Hh; [now eexists|].
  destruct (isValidIPv4 (RemoteHostIP kc)) eqn:Hv; [|now eexists].
  cbn [negb]. unfold bind at 1 4 7.
  match goal with
  | |- context [(if String.eqb (RemoteHostPort kc) "" then ?a else ?b) s] =>
      set (s0 := (if String.eqb (RemoteHostPort kc) "" then a else b) s)
  end.
  assert (Hs0 : world (snd s0) = world s /\
                dials (trace (snd s0)) = dials (trace s)).
  { subst s0. destruct (String.eqb (RemoteHostPort kc) ""); run_steps; auto. }
  destruct s0 as [port s0']. cbn [fst snd] in Hs0. destruct Hs0 as [Hw0 Hd0].
  destruct (if negb (String.eqb (KnownHosts kc) "")
            then knownhosts_New (KnownHosts kc) else inl InsecureIgnoreHostKey)
    as [cb|ke] eqn:Hk; [|now eexists].
  assert (Hwf : well_formed kc = true).
  { unfold well_formed. rewrite Hu, Hh, Hv. cbn [negb andb].
    destruct (negb (String.eqb (KnownHosts kc) "")); [now rewrite Hk | reflexivity]. }
  destruct Hbad as [Hbad|Hnone]; [congruence|].
  pose proof (authMethods_spec kc s0') as HA. cbv zeta in HA.
  unfold bind.
  destruct (authMethods kc s0') as [auth s1]. cbn [fst snd] in HA.
  destruct HA as (Ha & Hw1 & Hd1 & _).
  rewrite Hnone in Ha. subst auth.
  eexists. cbn [ret fst snd]. repeat split; congruence.
Qed.


Lemma connectConfig_no_auth (kc : Config) (s : St W) :
  well_formed kc = true -> chosenAuth kc = None ->
  fst (connectConfig kc s)
  = (None, Some (ErrorNew "Private Key or Password key not found in the data.")).
Proof.
  intros Hwf Hnone.
  destruct (well_formed_inv kc Hwf) as (Hu & Hh & Hv & cb & Hcb).
  unfold connectConfig. rewrite Hu, Hh, Hv. cbn [negb].
  unfold chosenCallback in Hcb. rewrite Hcb.
  unfold bind at 1.
  match goal with
  | |- context [(if String.eqb (RemoteHostPort kc) "" then ?a else ?b) s] =>
      destruct ((if String.eqb (RemoteHostPort kc) "" then a else b) s)
        as [port s0]
  end.
  unfold bind at 1.
  pose proof (authMethods_spec kc s0) as HA. cbv zeta in HA.
  destruct (authMethods kc s0) as [auth s1]. cbn [fst snd] in HA.
  destruct HA as (Ha & _). rewrite Hnone in Ha. subst auth. reflexivity.
Qed.

Lemma NewSSHClient_decoded (data : string) (kc : Config) (s : St W) :
  json_Unmarshal data = inl kc -> NewSSHClient data s = connectConfig kc s.
Proof. intros E. unfold NewSSHClient. now rewrite E. Qed.

Lemma dialWithRetries_world (host : string) (cfg : ClientConfig) (s s' : St W) :
  world s = world s' ->
  fst (dialWithRetries host cfg s) = fst (dialWithRetries host cfg s').
Proof.
  intros Hw.
  destruct (dialWithRetries_outcome host cfg s) as [_ O].
  destruct (dialWithRetries_outcome host cfg s') as [_ O'].
  cbv zeta in O, O'. rewrite <- Hw in O'.
  destruct (ssh_Dial "tcp" host cfg (world s)) as [[c|e1] w1];
    [destruct O as (-> & _), O' as (-> & _); reflexivity|].
  destruct (ssh_Dial "tcp" host cfg (snd (time_Sleep delayBetweenRetries w1)))
    as [[c|e2] w2];
    [destruct O as (-> & _), O' as (-> & _); reflexivity|].
  destruct (ssh_Dial "tcp" host cfg (snd (time_Sleep delayBetweenRetries w2)))
    as [[c|e3] w3];
    destruct O as (-> & _), O' as (-> & _); reflexivity.
Qed.

Lemma dialWithRetries_dials (host : string) (cfg : ClientConfig) (s : St W) :
  exists k, 1 <= k <= 3 /\
    dials (trace (snd (dialWithRetries host cfg s)))
    = (dials (trace s) ++ repeat (EvDial "tcp" host cfg) k)%list.
Proof.
  destruct (dialWithRetries_outcome host cfg s) as [_ O]. cbv zeta in O.
  destruct (ssh_Dial "tcp" host cfg (world s)) as [[c|e1] w1];
    [destruct O as (_ & _ & ->); exists 1; split; [lia | reflexivity]|].
  destruct (ssh_Dial "tcp" host cfg (snd (time_Sleep delayBetweenRetries w1)))
    as [[c|e2] w2];
    [destruct O as (_ & _ & ->); exists 2; split; [lia | reflexivity]|].
  destruct (ssh_Dial "tcp" host cfg (snd (time_Sleep delayBetweenRetries w2)))
    as [[c|e3] w3];
    destruct O as (_ & _ & ->); exists 3; (split; [lia | reflexivity]).
Qed.

(** The dials of a whole call of connectConfig: none, or one to three
    with the address and the configuration of the payload. *)
Lemma connectConfig_dials (kc : Config) (w : W) :
  let tr := trace (snd (run (connectConfig kc) w)) in
  (well_formed kc = false \/ chosenAuth kc = None) /\ dials tr = []
  \/ exists methods cb k,
       well_formed kc = true /\ chosenAuth kc = Some methods /\
       chosenCallback kc = inl cb /\ 1 <= k <= 3 /\
       dials tr = repeat (EvDial "tcp" (dialAddress kc)
                            (mkClientConfig (Username kc) methods (Some cb))) k.
Proof.
  cbv zeta. unfold run.
  destruct (well_formed kc) eqn:Hwf.
  2:{ left. split; [now left|].
      destruct (connectConfig_rejects kc (mkSt w []) (or_introl Hwf))
        as (e & _ & _ & ->). reflexivity. }
  destruct (chosenAuth kc) as [methods|] eqn:Hauth.
  2:{ left. split; [now right|].
      destruct (connectConfig_rejects kc (mkSt w []) (or_intror Hauth))
        as (e & _ & _ & ->). reflexivity. }
  right.
  destruct (connectConfig_connects kc (mkSt w []) methods Hwf Hauth)
    as (cb & s1 & Hcb & _ & Hd & _ & _ & _ & ->).
  destruct (dialWithRetries_dials (dialAddress kc)
              (mkClientConfig (Username kc) methods (Some cb)) s1)
    as (k & Hk & ->).
  exists methods, cb, k. rewrite Hd. cbn [trace dials filter app]. auto.
Qed.


(** C5.  NewSSHClient dials at most three times.  For a payload that is
    decoded, passes the checks and has authentication material, it dials
    the address of the payload with one configuration: the first dial that
    succeeds ends the loop and its connection is returned without an error
    (in particular after two failures and a success); when the three dials
    fail, the error of the third is returned. *)
Theorem NewSSHClient_bounded_retry :
  (forall data w,
      (List.length (dials (trace (snd (run (NewSSHClient data) w)))) <= 3)%nat) /\
  (forall data kc w,
      json_Unmarshal data = inl kc ->
      well_formed kc = true ->
      chosenAuth kc <> None ->
      exists cfg,
        let try := ssh_Dial "tcp" (dialAddress kc) cfg in
        let pause := fun w => snd (time_Sleep delayBetweenRetries w) in
        let r := run (NewSSHClient data) w in
        let d := EvDial "tcp" (dialAddress kc) cfg in
        match try w with
        | (inl c, _) =>
            fst r = (Some c, None) /\ dials (trace (snd r)) = [d]
        | (inr e1, w1) =>
            match try (pause w1) with
            | (inl c, _) =>
                fst r = (Some c, None) /\ dials (trace (snd r)) = [d; d]
            | (inr e2, w2) =>
                match try (pause w2) with
                | (inl c, _) =>
                    fst r = (Some c, None) /\
                    dials (trace (snd r)) = [d; d; d]
                | (inr e3, _) =>
                    fst r = (None, Some e3) /\
                    dials (trace (snd r)) = [d; d; d]
                end
            end
        end).
Proof.
  split.
  - intros data w. unfold run, NewSSHClient.
    destruct (json_Unmarshal data) as [kc|e]; [|cbn; lia].
    destruct (connectConfig_dials kc w) as [[_ Hd]|(ms & cb & k & _ & _ & _ & Hk & Hd)];
      unfold run in Hd; cbv zeta in Hd; rewrite Hd; [cbn; lia|].
    rewrite repeat_length. lia.
  - intros data kc w Hdata Hwf Hauth.
    destruct (chosenAuth kc) as [methods|] eqn:Hm; [clear Hauth | congruence].
    unfold run. rewrite (NewSSHClient_decoded data kc _ Hdata).
    destruct (connectConfig_connects kc (mkSt w []) methods Hwf Hm)
      as (cb & s1 & _ & Hw & Hd & _ & _ & _ & ->).
    exists (mkClientConfig (Username kc) methods (Some cb)).
    destruct (dialWithRetries_outcome (dialAddress kc)
                (mkClientConfig (Username kc) methods (Some cb)) s1) as [_ O].
    cbv zeta in O |- *. rewrite Hw, Hd in O. cbn [world trace dials filter app] in O.
    destruct (ssh_Dial "tcp" (dialAddress kc) _ w) as [[c|e1] w1]; [tauto|].
    destruct (ssh_Dial "tcp" (dialAddress kc) _
                (snd (time_Sleep delayBetweenRetries w1))) as [[c|e2] w2]; [tauto|].
    destruct (ssh_Dial "tcp" (dialAddress kc) _
                (snd (time_Sleep delayBetweenRetries w2))) as [[c|e3] w3]; tauto.
Qed.

(** C6, as the code has it.  A payload with neither a password nor a
    private key gets an error and nothing is dialled (the error that says
    so, when the payload passes the checks that come first).  Exactly one
    method is not required: a payload that passes the other checks is
    dialled as soon as at least one of the two is present, both included. *)
Theorem NewSSHClient_requires_some_auth :
  (forall data w,
      (forall kc, json_Unmarshal data = inl kc ->
                  PrivateKey kc = "" /\ Password kc = "") ->
      exists e,
        fst (run (NewSSHClient data) w) = (None, Some e) /\
        dials (trace (snd (run (NewSSHClient data) w))) = []) /\
  (forall data kc w,
      json_Unmarshal data = inl kc ->
      well_formed kc = true ->
      PrivateKey kc = "" -> Password kc = "" ->
      fst (run (NewSSHClient data) w)
      = (None, Some (ErrorNew
                       "Private Key or Password key not found in the data."))) /\
  (forall data kc w,
      json_Unmarshal data = inl kc ->
      well_formed kc = true ->
      PrivateKey kc <> "" \/ Password kc <> "" ->
      exists cfg,
        hd_error (dials (trace (snd (run (NewSSHClient data) w))))
        = Some (EvDial "tcp" (dialAddress kc) cfg)).
Proof.
  split; [|split].
  - intros data w Hnone. unfold run.
    destruct (json_Unmarshal data) as [kc|e] eqn:Hdata.
    + rewrite (NewSSHClient_decoded data kc _ Hdata).
      destruct (Hnone kc eq_refl) as [Hk Hp].
      assert (Hauth : chosenAuth kc = None)
        by (unfold chosenAuth; now rewrite Hk, Hp).
      destruct (connectConfig_rejects kc (mkSt w []) (or_intror Hauth))
        as (e & He & _ & Hd).
      exists e. now rewrite He, Hd.
    + unfold NewSSHClient. rewrite Hdata. now eexists.
  - intros data kc w Hdata Hwf Hk Hp. unfold run.
    rewrite (NewSSHClient_decoded data kc _ Hdata).
    apply connectConfig_no_auth; [exact Hwf|].
    unfold chosenAuth. now rewrite Hk, Hp.
  - intros data kc w Hdata Hwf Hsome. unfold run.
    rewrite (NewSSHClient_decoded data kc _ Hdata).
    assert (Hauth : exists methods, chosenAuth kc = Some methods).
    { unfold chosenAuth.
      destruct (String.eqb (PrivateKey kc) "") eqn:Ek; [|now eexists].
      destruct (String.eqb (Password kc) "") eqn:Ep; [|now eexists].
      apply String.eqb_eq in Ek, Ep. tauto. }
    destruct Hauth as [methods Hm].
    destruct (connectConfig_connects kc (mkSt w []) methods Hwf Hm)
      as (cb & s1 & _ & _ & Hd & _ & _ & _ & ->).
    destruct (dialWithRetries_dials (dialAddress kc)
                (mkClientConfig (Username kc) methods (Some cb)) s1)
      as (k & Hk & ->).
    rewrite Hd. exists (mkClientConfig (Username kc) methods (Some cb)).
    destruct k; [lia | reflexivity].
Qed.

(** C9.  When the private key of the payload is not empty, the methods
    are public-key authentication with the signer of that key, whatever
    the password is: the call does the same with any other password, and
    every dial carries that method.  Password authentication is what a
    dial carries only when the private key is empty and the password is
    not. *)
Theorem NewSSHClient_prefers_private_key :
  (forall kc,
      PrivateKey kc <> "" ->
      (forall s, fst (authMethods kc s) = Some [PublicKeys (parsedSigner kc)]) /\
      (forall password s,
          connectConfig (with_password kc password) s = connectConfig kc s) /\
      (forall w network addr cfg,
          In (EvDial network addr cfg) (trace (snd (run (connectConfig kc) w))) ->
          Auth cfg = [PublicKeys (parsedSigner kc)]) /\
      (forall w,
          well_formed kc = true ->
          exists cfg,
            hd_error (dials (trace (snd (run (connectConfig kc) w))))
            = Some (EvDial "tcp" (dialAddress kc) cfg))) /\
  (forall kc w network addr cfg password,
      In (EvDial network addr cfg) (trace (snd (run (connectConfig kc) w))) ->
      In (PasswordAuth password) (Auth cfg) ->
      PrivateKey kc = "" /\ Password kc = password /\ password <> "") /\
  (forall kc s,
      PrivateKey kc = "" -> Password kc <> "" ->
      fst (authMethods kc s) = Some [PasswordAuth (Password kc)]).
Proof.
  assert (Hdial : forall kc w network addr cfg,
             In (EvDial network addr cfg) (trace (snd (run (connectConfig kc) w))) ->
             chosenAuth kc = Some (Auth cfg)).
  { intros kc w network addr cfg Hin.
    assert (Hin' : In (EvDial network addr cfg)
                      (dials (trace (snd (run (connectConfig kc) w)))))
      by (apply filter_In; split; [exact Hin | reflexivity]).
    destruct (connectConfig_dials kc w)
      as [[_ Hd]|(ms & cb & k & _ & Hm & _ & _ & Hd)];
      cbv zeta in Hd; rewrite Hd in Hin'; [contradiction|].
    apply repeat_spec in Hin'. injection Hin' as _ _ ->. exact Hm. }
  assert (Hkey : forall kc, PrivateKey kc <> "" ->
             chosenAuth kc = Some [PublicKeys (parsedSigner kc)]).
  { intros kc Hk. unfold chosenAuth.
    apply String.eqb_neq in Hk. now rewrite Hk. }
  split; [|split].
  - intros kc Hk. repeat split.
    + intros s. destruct (authMethods_spec kc s) as [-> _]. now apply Hkey.
    + intros password s. apply String.eqb_neq in Hk.
      unfold connectConfig, authMethods, with_password.
      cbn [Username RemoteHostIP RemoteHostPort KnownHosts PrivateKey Password].
      now rewrite Hk.
    + intros w network addr cfg Hin.
      apply Hdial in Hin. rewrite (Hkey kc Hk) in Hin. congruence.
    + intros w Hwf.
      destruct (connectConfig_connects kc (mkSt w []) _ Hwf (Hkey kc Hk))
        as (cb & s1 & _ & _ & Hd & _ & _ & _ & E).
      unfold run. rewrite E.
      destruct (dialWithRetries_dials (dialAddress kc)
                  (mkClientConfig (Username kc) [PublicKeys (parsedSigner kc)]
                     (Some cb)) s1) as (k & Hk' & ->).
      rewrite Hd. eexists. destruct k; [lia | reflexivity].
  - intros kc w network addr cfg password Hin Hpw.
    apply Hdial in Hin. unfold chosenAuth in Hin.
    destruct (String.eqb (PrivateKey kc) "") eqn:Ek; cbn [negb] in Hin.
    + destruct (String.eqb (Password kc) "") eqn:Ep; cbn [negb] in Hin;
        [discriminate|].
      injection Hin as Hin. rewrite <- Hin in Hpw.
      destruct Hpw as [Hpw|[]]. injection Hpw as <-.
      apply String.eqb_eq in Ek. apply String.eqb_neq in Ep. auto.
    + injection Hin as Hin. rewrite <- Hin in Hpw.
      destruct Hpw as [Hpw|[]]. discriminate.
  - intros kc s Hk Hp. destruct (authMethods_spec kc s) as [-> _].
    unfold chosenAuth. apply String.eqb_neq in Hp. rewrite Hk, Hp. reflexivity.
Qed.

(** C10.  For a payload that passes the checks and whose private key is
    not empty, a key that is not base64 and a key that does not parse are
    errors that are logged and nothing more: the methods are built all the
    same (with the nil signer when the key does not parse), the retry loop
    is entered, and what the call returns is what the loop returns. *)
Theorem NewSSHClient_key_errors_only_logged :
  forall data kc w,
    json_Unmarshal data = inl kc ->
    well_formed kc = true ->
    PrivateKey kc <> "" ->
    let r := run (NewSSHClient data) w in
    (forall e, snd (base64_DecodeString (PrivateKey kc)) = Some e ->
               In (EvLogError e "Error decoding base64 private key")
                  (trace (snd r))) /\
    (forall e, ssh_ParsePrivateKey (fst (base64_DecodeString (PrivateKey kc)))
               = inr e ->
               In (EvLogError e "Failed to parse private key") (trace (snd r))
               /\ parsedSigner kc = None) /\
    exists cb,
      let cfg := mkClientConfig (Username kc) [PublicKeys (parsedSigner kc)]
                   (Some cb) in
      hd_error (dials (trace (snd r)))
      = Some (EvDial "tcp" (dialAddress kc) cfg) /\
      fst r = fst (run (dialWithRetries (dialAddress kc) cfg) w).
Proof.
  intros data kc w Hdata Hwf Hk. cbv zeta. unfold run.
  rewrite (NewSSHClient_decoded data kc _ Hdata).
  assert (Hm : chosenAuth kc = Some [PublicKeys (parsedSigner kc)]).
  { unfold chosenAuth. apply String.eqb_neq in Hk. now rewrite Hk. }
  destruct (connectConfig_connects kc (mkSt w []) _ Hwf Hm)
    as (cb & s1 & _ & Hw & Hd & _ & Hl1 & Hl2 & ->).
  set (cfg := mkClientConfig (Username kc) [PublicKeys (parsedSigner kc)] (Some cb)).
  destruct (dialWithRetries_outcome (dialAddress kc) cfg s1) as [Hmono _].
  cbv zeta in Hmono.
  split; [|split].
  - intros e He. apply Hmono. now apply Hl1.
  - intros e He. split; [apply Hmono; now apply Hl2|].
    unfold parsedSigner. now rewrite He.
  - exists cb. fold cfg. split.
    + destruct (dialWithRetries_dials (dialAddress kc) cfg s1) as (k & Hk' & ->).
      rewrite Hd. destruct k; [lia | reflexivity].
    + apply dialWithRetries_world. exact Hw.
Qed.

End Facts.

Lemma NewSSHClient_bounded_retry_witness :
  fst (run (NewSSHClient (H := Sim.simWorld Sim.payloads) "password-only")
         (Sim.network [Sim.refused 1; Sim.refused 2; inl (client_handle 7)]))
  = (Some (client_handle 7), None).
Proof.
  destruct (proj2 (@NewSSHClient_bounded_retry Sim.SimWorld (Sim.simWorld Sim.payloads))
              "password-only" (Sim.sampleConfig "secret" "")
              (Sim.network [Sim.refused 1; Sim.refused 2; inl (client_handle 7)])
              eq_refl eq_refl ltac:(discriminate)) as [cfg Hc].
  exact (proj1 Hc).
Defined.


Lemma NewSSHClient_requires_some_auth_witness :
  (exists e,
      fst (run (NewSSHClient (H := Sim.simWorld Sim.payloads) "neither")
             (Sim.network [inl (client_handle 7)])) = (None, Some e))
  /\ fst (run (NewSSHClient (H := Sim.simWorld Sim.payloads) "neither")
            (Sim.network [inl (client_handle 7)]))
     = (None, Some (ErrorNew "Private Key or Password key not found in the data."))
  /\ exists cfg,
      hd_error (dials (trace (snd
        (run (NewSSHClient (H := Sim.simWorld Sim.payloads) "key-only")
           (Sim.network [inl (client_handle 7)])))))
      = Some (EvDial "tcp" "10.29.30.5:22" cfg).
Proof.
  split; [|split].
  - destruct (proj1 (@NewSSHClient_requires_some_auth Sim.SimWorld
                       (Sim.simWorld Sim.payloads))
                "neither" (Sim.network [inl (client_handle 7)])) as (e & He & _).
    + intros kc E. injection E as <-. split; reflexivity.
    + now exists e.
  - apply (proj1 (proj2 (@NewSSHClient_requires_some_auth Sim.SimWorld
                           (Sim.simWorld Sim.payloads)))
             "neither" (Sim.sampleConfig "" "")); reflexivity.
  - apply (proj2 (proj2 (@NewSSHClient_requires_some_auth Sim.SimWorld
                           (Sim.simWorld Sim.payloads)))
             "key-only" (Sim.sampleConfig "" "a2V5")
             (Sim.network [inl (client_handle 7)]) eq_refl eq_refl).
    left. discriminate.
Defined.

(** C6 as stated fails: a payload with a password and a private key is
    not refused; it is dialled and the connection is returned. *)
Lemma NewSSHClient_accepts_both_methods :
  json_Unmarshal (World := Sim.simWorld Sim.payloads) "both"
  = inl (Sim.sampleConfig "secret" "a2V5")
  /\ fst (run (NewSSHClient (H := Sim.simWorld Sim.payloads) "both")
            (Sim.network [inl (client_handle 7)]))
     = (Some (client_handle 7), None)
  /\ dials (trace (snd (run (NewSSHClient (H := Sim.simWorld Sim.payloads) "both")
                          (Sim.network [inl (client_handle 7)]))))
     = [EvDial "tcp" "10.29.30.5:22"
          (mkClientConfig "ubuntu"
             [PublicKeys (Some (signer_of_key (list_byte_of_string "a2V5")))]
             (Some InsecureIgnoreHostKey))].
Proof. repeat split. Qed.

Lemma NewSSHClient_prefers_private_key_witness :
  fst (authMethods (H := Sim.simWorld Sim.payloads)
         (Sim.sampleConfig "secret" "a2V5") (mkSt (Sim.network []) []))
  = Some [PublicKeys (Some (signer_of_key (list_byte_of_string "a2V5")))]
  /\ fst (authMethods (H := Sim.simWorld Sim.payloads)
            (Sim.sampleConfig "secret" "") (mkSt (Sim.network []) []))
     = Some [PasswordAuth "secret"].
Proof.
  split.
  - apply (proj1 (@NewSSHClient_prefers_private_key Sim.SimWorld
                    (Sim.simWorld Sim.payloads))
             (Sim.sampleConfig "secret" "a2V5")).
    discriminate.
  - apply (proj2 (proj2 (@NewSSHClient_prefers_private_key Sim.SimWorld
                           (Sim.simWorld Sim.payloads)))
             (Sim.sampleConfig "secret" "")); [reflexivity | discriminate].
Defined.

Lemma NewSSHClient_key_errors_only_logged_witness :
  In (EvLogError (ErrorNew "illegal base64 data at input byte 0")
        "Error decoding base64 private key")
     (trace (snd (run (NewSSHClient (H := Sim.simWorld Sim.payloads) "bad-key")
                    (Sim.network [inl (client_handle 7)]))))
  /\ fst (run (NewSSHClient (H := Sim.simWorld Sim.payloads) "bad-key")
            (Sim.network [inl (client_handle 7)]))
     = (Some (client_handle 7), None).
Proof.
  destruct (@NewSSHClient_key_errors_only_logged Sim.SimWorld
              (Sim.simWorld Sim.payloads)
              "bad-key" (Sim.sampleConfig "" "not base64!")
              (Sim.network [inl (client_handle 7)]) eq_refl eq_refl
              ltac:(discriminate)) as (Hdec & _ & cb & _ & Hres).
  split.
  - apply Hdec. reflexivity.
  - rewrite Hres. reflexivity.
Defined.

End Connection.

(** ** Running a script *)

Module Execution.
Import Runner.

Lemma runs_app (a b : list Event) : runs (a ++ b) = (runs a ++ runs b)%list.
Proof. apply flat_map_app. Qed.

(** One call to the world, with the cases of its answer. *)
Ltac step_world :=
  match goal with
  | |- context [rand_Read ?n ?w] =>
      destruct (rand_Read n w) as [? ?]
  | |- context [client_NewSession ?c ?w] =>
      destruct (client_NewSession c w) as [[?|?] ?]
  | |- context [sftp_NewClient ?c ?w] =>
      destruct (sftp_NewClient c w) as [[?|?] ?]
  | |- context [sftp_Create ?c ?p ?w] =>
      destruct (sftp_Create c p w) as [[?|?] ?]
  | |- context [file_WriteTo ?f ?c ?w] =>
      destruct (file_WriteTo f c w) as [[?|] ?]
  | |- context [file_Close ?f ?w] =>
      destruct (file_Close f w) as [? ?]
  | |- context [session_Close ?f ?w] =>
      destruct (session_Close f w) as [? ?]
  | |- context [session_Run ?f ?c ?w] =>
      destruct (session_Run f c w) as [[[? ?] [?|]] ?]
  end.

Section Facts.
Context {W : Type} `{World W}.

(** What a call of ExecuteScript leaves, in every world: when it returns
    an error the standard output it returns is empty and no command was run
    after the script; when it returns no error, the script was run and then
    [rm -f] on the staged file, or the session for [rm -f] could not be
    opened and that was logged. *)
Lemma ExecuteScript_outcomes (client : Client) (sc : string) (vars : list Var)
    (suEnabled : bool) (s : St W) :
  let r := ExecuteScript client sc vars suEnabled s in
  let file := stagedFile (world s) in
  let cmd := runCommand file suEnabled in
  match snd (fst r) with
  | Some e =>
      fst (fst (fst r)) = "" /\
      (runs (trace (snd r)) = runs (trace s) \/
       runs (trace (snd r)) = (runs (trace s) ++ [cmd])%list)
  | None =>
      runs (trace (snd r))
      = (runs (trace s) ++ [cmd; ("rm -f " ++ file)%string])%list \/
      (runs (trace (snd r)) = (runs (trace s) ++ [cmd])%list /\
       exists ce, In (EvLogError ce "Failed to clean up temporary file")
                     (trace (snd r)))
  end.
Proof.
  cbv beta iota zeta delta
    [ExecuteScript randomFileName sendFile cleanUpTempFile closeSession
     stagedFile runCommand bind ret call emit logInfo logError].
  cbn [fst snd world trace].
  repeat (step_world; cbn [fst snd world trace]).
  all: rewrite ?runs_app; cbn [runs flat_map app]; rewrite ?app_nil_r;
    rewrite <- ?app_assoc; cbn [app].
  all: try (split; [reflexivity|]).
  all: try (left; reflexivity).
  all: try (right; reflexivity).
  right. split; [reflexivity|]. eexists. apply in_or_app. right.
  cbn [In]. repeat (first [left; reflexivity | right]).
Qed.
End Facts.

(** C2: the code at an input that breaks the claim.  The status-check
    script of the README ends with exit status 1 when the file is not
    there: ExecuteScript returns at once, no [rm -f] is run and the staged
    file stays on the host.  With exit status 0 the file is removed; and
    when [rm -f] fails, the result of the call is still that of the
    script. *)
Theorem ExecuteScript_nonzero_exit_skips_cleanup :
  fst (run (ExecuteScript (H := Sim.simWorld []) (client_handle 0)
              "test -f /tmp/new_file.txt || exit 1" [] false)
           (Sim.host ("", "", Some (ExitError 1))))
  = ("", "", Some (ExitError 1))
  /\ runs (trace (snd
       (run (ExecuteScript (H := Sim.simWorld []) (client_handle 0)
               "test -f /tmp/new_file.txt || exit 1" [] false)
            (Sim.host ("", "", Some (ExitError 1))))))
     = ["chmod +x /tmp/tmp.0123456789abcdef && /tmp/tmp.0123456789abcdef"]
  /\ Sim.sim_files (world (snd
       (run (ExecuteScript (H := Sim.simWorld []) (client_handle 0)
               "test -f /tmp/new_file.txt || exit 1" [] false)
            (Sim.host ("", "", Some (ExitError 1))))))
     = [("/tmp/tmp.0123456789abcdef", "test -f /tmp/new_file.txt || exit 1")]
  /\ runs (trace (snd
       (run (ExecuteScript (H := Sim.simWorld []) (client_handle 0)
               "test -f /tmp/new_file.txt || exit 1" [] false)
            (Sim.host ("", "", None)))))
     = ["chmod +x /tmp/tmp.0123456789abcdef && /tmp/tmp.0123456789abcdef";
        "rm -f /tmp/tmp.0123456789abcdef"]
  /\ Sim.sim_files (world (snd
       (run (ExecuteScript (H := Sim.simWorld []) (client_handle 0)
               "test -f /tmp/new_file.txt || exit 1" [] false)
            (Sim.host ("", "", None)))))
     = []
  /\ fst (run (ExecuteScript (H := Sim.simWorld []) (client_handle 0)
                 "test -f /tmp/new_file.txt || exit 1" [] false)
              (Sim.host_failing_rm ("ok", "", None)
                 (ErrorNew "rm: cannot remove: Read-only file system")))
     = ("ok", "", None).
Proof. repeat split. Qed.

(** C7: the code at an input that breaks the claim.  The script wrote
    to its standard output and ended with exit status 1: ExecuteScript
    returns the standard error and the exit error, and an empty string in
    place of the standard output.  With exit status 0 both outputs are
    returned. *)
Theorem ExecuteScript_nonzero_exit_drops_stdout :
  fst (run (ExecuteScript (H := Sim.simWorld []) (client_handle 0)
              "echo File does not exist; exit 1" [] false)
           (Sim.host ("File does not exist", "warning", Some (ExitError 1))))
  = ("", "warning", Some (ExitError 1))
  /\ fst (run (ExecuteScript (H := Sim.simWorld []) (client_handle 0)
                 "echo File exists; exit 0" [] false)
              (Sim.host ("File exists", "warning", None)))
     = ("File exists", "warning", None).
Proof. split; reflexivity. Qed.

End Execution.

(** ** Observing *)

Module Observation.
Import Runner Controller.

Section Facts.
Context {W : Type} `{World W}.

(** C1, as the code has it.  For every run of the status-check script by
    Observe (the resource is a Script that is not being deleted, the body is
    not empty, the client is there), the result signals: Ready when the run
    returns no error (exit status 0); Fatal, with an error returned, status
    code 1 recorded and no update, for exit status 1 and also for a failure
    without exit status; Absent for exit status 100; NeedsRemediation for
    every other exit status.  No run is signalled as Unknown.  The SSH
    library reports exit status 0 as no error, never as an exit error. *)
Theorem Observe_classifies_exit_status :
  forall (c : external) (client : Client) (cr : Script) (s : St W),
    service c = Some client ->
    isBeingDeleted cr = false ->
    StatusCheckScript (ForProvider cr) <> "" ->
    let s0 := snd (logInfo ("[" ++ ObjectName cr ++ "] Observing...") [] s) in
    let ran := ExecuteScript client (StatusCheckScript (ForProvider cr))
                 (Variables (ForProvider cr)) (SudoEnabled (ForProvider cr)) s0 in
    let rerr := snd (fst ran) in
    rerr <> Some (ExitError 0) ->
    exists mg obs err st,
      Observe c (ScriptResource cr) s = (Returns (mg, obs, err), st) /\
      world st = world (snd ran) /\
      classification_of (mg, obs, err) = code_classification (outcome_of rerr) /\
      code_classification (outcome_of rerr) <> Unknown /\
      nextAction obs err = action_for (code_classification (outcome_of rerr)) /\
      (err <> None <-> code_classification (outcome_of rerr) = Fatal) /\
      (err <> None ->
       exists cr', mg = ScriptResource cr' /\ StatusCode (AtProvider cr') = 1%Z).
Proof.
  intros c client cr s Hsvc Hdel Hbody s0 ran rerr Hnz.
  unfold Observe. cbn [GetName]. unfold bind at 1.
  change (logInfo ("[" ++ ObjectName cr ++ "] Observing...") [] s) with (tt, s0).
  cbv iota beta.
  rewrite Hdel. apply String.eqb_neq in Hbody. rewrite Hbody. cbn [negb].
  rewrite Hsvc. unfold bind at 1. fold ran.
  subst rerr. destruct ran as [[[stdout stderr] rerr] st]. cbn [fst snd] in *.
  destruct rerr as [e|].
  - destruct e as [msg|cause msg|status]; cbn [asExitError outcome_of].
    + cbv beta iota zeta delta [bind ret logInfo emit]. cbn [fst snd Z.eqb].
      do 4 eexists. split; [reflexivity|].
      cbn. repeat split; try discriminate; eauto.
    + cbv beta iota zeta delta [bind ret logInfo emit]. cbn [fst snd Z.eqb].
      do 4 eexists. split; [reflexivity|].
      cbn. repeat split; try discriminate; eauto.
    + cbv beta iota zeta delta [bind ret logInfo emit]. cbn [fst snd].
      unfold code_classification.
      destruct (status =? 0)%Z eqn:E0;
        [apply Z.eqb_eq in E0; subst status; congruence|].
      destruct (status =? 1)%Z eqn:E1.
      * do 4 eexists. split; [reflexivity|].
        cbn. repeat split; try discriminate; eauto.
        apply Z.eqb_eq in E1. subst status. eauto.
      * destruct (status =? 100)%Z eqn:E100.
        -- do 4 eexists. split; [reflexivity|].
           cbn. repeat split; try discriminate; try congruence.
        -- do 4 eexists. split; [reflexivity|].
           cbn. repeat split; try discriminate; try congruence.
  - cbv beta iota zeta delta [bind ret logInfo emit]. cbn [fst snd].
    do 4 eexists. split; [reflexivity|].
    cbn. repeat split; try discriminate; try congruence.
Qed.

(** C8, as the code has it.  When the body of the status-check script is
    empty, Observe calls nothing outside the process (the world is as it
    was, and the trace grows by log lines only); it signals Ready when the
    resource is not being deleted, and Absent when it is. *)
Theorem Observe_without_status_check :
  forall (c : external) (cr : Script) (s : St W),
    StatusCheckScript (ForProvider cr) = "" ->
    exists obs st logs,
      Observe c (ScriptResource cr) s
      = (Returns (ScriptResource cr, obs, None), st) /\
      world st = world s /\
      trace st = (trace s ++ logs)%list /\
      Forall (fun ev => exists msg kvs, ev = EvLogInfo msg kvs) logs /\
      classification_of (ScriptResource cr, obs, None)
      = (if isBeingDeleted cr then Absent else Ready).
Proof.
  intros c cr s Hbody.
  unfold Observe. cbn [GetName]. rewrite Hbody. cbn [String.eqb negb].
  destruct (isBeingDeleted cr);
    cbv beta iota zeta delta [bind ret logInfo emit]; cbn [fst snd world trace];
    do 3 eexists; (split; [reflexivity|]); (split; [reflexivity|]);
    rewrite <- app_assoc; (split; [reflexivity|]);
    (split; [|reflexivity]);
    repeat constructor; eauto.
Qed.

End Facts.

Lemma Observe_classifies_exit_status_witness :
  exists mg obs err st,
    Observe (H := Sim.simWorld []) (mkExternal (Some (client_handle 0)))
      (ScriptResource (Sim.sampleScript "exit 100" []))
      (mkSt (Sim.host ("", "", Some (ExitError 100))) [])
    = (Returns (mg, obs, err), st)
    /\ classification_of (mg, obs, err) = Absent
    /\ nextAction obs err = RunInit.
Proof.
  destruct (@Observe_classifies_exit_status Sim.SimWorld (Sim.simWorld [])
              (mkExternal (Some (client_handle 0))) (client_handle 0)
              (Sim.sampleScript "exit 100" [])
              (mkSt (Sim.host ("", "", Some (ExitError 100))) [])
              eq_refl eq_refl ltac:(discriminate) ltac:(discriminate))
    as (mg & obs & err & st & HO & _ & Hc & _ & Ha & _).
  exists mg, obs, err, st. auto.
Defined.

(** C1 as stated fails: a run that ends without an exit status (the
    connection is lost while the script runs) is not signalled as Unknown;
    it is given exit status 1 and signalled as Fatal, as a script that
    exits with status 1 is. *)
Lemma Observe_no_exit_status_is_fatal :
  outcome_of (Some Sim.lost_connection) = NoExitStatus
  /\ spec_classification (outcome_of (Some Sim.lost_connection)) = Unknown
  /\ exists cr',
       fst (run (Observe (H := Sim.simWorld [])
                   (mkExternal (Some (client_handle 0)))
                   (ScriptResource (Sim.sampleScript "exit 0" [])))
              (Sim.host ("", "", Some Sim.lost_connection)))
       = Returns (ScriptResource cr', emptyObservation,
                  Some (ErrorWrap Sim.lost_connection
                          "Script failed with exit code 1."))
       /\ StatusCode (AtProvider cr') = 1%Z
       /\ classification_of
            (ScriptResource cr', emptyObservation,
             Some (ErrorWrap Sim.lost_connection
                     "Script failed with exit code 1."))
          = Fatal.
Proof. repeat split. eexists. repeat split. Qed.

Lemma Observe_without_status_check_witness :
  exists obs st,
    Observe (H := Sim.simWorld []) (mkExternal None)
      (ScriptResource (Sim.sampleScript "" []))
      (mkSt (Sim.host ("", "", None)) [])
    = (Returns (ScriptResource (Sim.sampleScript "" []), obs, None), st)
    /\ classification_of (ScriptResource (Sim.sampleScript "" []), obs, None) = Ready.
Proof.
  destruct (@Observe_without_status_check Sim.SimWorld (Sim.simWorld [])
              (mkExternal None) (Sim.sampleScript "" [])
              (mkSt (Sim.host ("", "", None)) []) eq_refl)
    as (obs & st & logs & HO & _ & _ & _ & Hc).
  exists obs, st. auto.
Defined.

(** C8 as stated fails: a resource that is being deleted and has no
    status-check script is signalled as Absent, not as Ready. *)
Lemma Observe_deleting_is_absent :
  StatusCheckScript (ForProvider (Sim.sampleScript "" [Deleting])) = ""
  /\ fst (run (Observe (H := Sim.simWorld []) (mkExternal None)
                 (ScriptResource (Sim.sampleScript "" [Deleting])))
            (Sim.host ("", "", None)))
     = Returns (ScriptResource (Sim.sampleScript "" [Deleting]),
                mkExternalObservation false false None, None)
  /\ classification_of (ScriptResource (Sim.sampleScript "" [Deleting]),
                        mkExternalObservation false false None, None)
     = Absent.
Proof. repeat split. Qed.

End Observation.

(* ===================================================================== *)
(** * Further properties of the code *)
(* ===================================================================== *)

(** ** The host check (ssh.go, isValidIPv4) *)

Module Hosts.
Import SSHClient StringFacts SubstFacts.

Lemma dot_free_cons (c : ascii) (p : string) :
  Contains (String c p) "." = false <->
  Ascii.eqb c "." = false /\ Contains p "." = false.
Proof.
  cbn [Contains]. rewrite prefix_cons, prefix_nil_l, andb_true_r.
  rewrite Ascii.eqb_sym. rewrite orb_false_iff. tauto.
Qed.

Lemma labels_nonempty (s : string) : labels s <> [].
Proof.
  induction s as [|c s IH]; [discriminate|]. cbn [labels].
  destruct (Ascii.eqb c "."); [discriminate|].
  destruct (labels s); [congruence | discriminate].
Qed.

Lemma Join_labels (s : string) : Join (labels s) "." = s.
Proof.
  induction s as [|c s IH]; [reflexivity|]. cbn [labels].
  destruct (Ascii.eqb c ".") eqn:E.
  - apply Ascii.eqb_eq in E. subst c.
    rewrite Join_empty_cons by apply labels_nonempty. now rewrite IH.
  - rewrite Join_cons_head by apply labels_nonempty. now rewrite IH.
Qed.

Lemma labels_dot_free (s : string) :
  Forall (fun p => Contains p "." = false) (labels s).
Proof.
  induction s as [|c s IH]; [repeat constructor|]. cbn [labels].
  destruct (Ascii.eqb c ".") eqn:E.
  - constructor; [reflexivity | exact IH].
  - pose proof (labels_nonempty s) as Hne.
    destruct (labels s) as [|p ps]; [congruence|].
    inversion IH as [|? ? Hp Hps]; subst. cbn [cons_head].
    constructor; [|exact Hps]. apply dot_free_cons. auto.
Qed.

Lemma labels_before_dot (p t : string) :
  Contains p "." = false -> labels (p ++ "." ++ t) = p :: labels t.
Proof.
  induction p as [|c p IH]; intros Hp; [reflexivity|].
  apply dot_free_cons in Hp as [Hc Hp].
  cbn [append labels]. rewrite Hc.
  change (p ++ String "." t) with (p ++ "." ++ t).
  now rewrite IH.
Qed.

Lemma labels_single (p : string) :
  Contains p "." = false -> labels p = [p].
Proof.
  induction p as [|c p IH]; intros Hp; [reflexivity|].
  apply dot_free_cons in Hp as [Hc Hp].
  cbn [labels]. rewrite Hc. now rewrite IH.
Qed.

Lemma labels_Join (l : list string) :
  l <> [] -> Forall (fun p => Contains p "." = false) l ->
  labels (Join l ".") = l.
Proof.
  induction l as [|p [|q ps] IH]; intros Hne Hl; [congruence | |].
  - inversion Hl; subst. now apply labels_single.
  - inversion Hl as [|? ? Hp Hrest]; subst.
    change (Join (p :: q :: ps) ".") with (p ++ "." ++ Join (q :: ps) ".").
    rewrite labels_before_dot by exact Hp.
    f_equal. apply IH; [discriminate | exact Hrest].
Qed.

Lemma ipv4Pattern_in_urlPattern (s : string) :
  matches_ipv4Pattern s = true -> matches_urlPattern s = true.
Proof.
  unfold matches_ipv4Pattern, matches_urlPattern. intros Hm.
  apply andb_prop in Hm as [Hlen Hall].
  apply Nat.eqb_eq in Hlen. rewrite Hlen. cbn [Nat.leb andb].
  apply forallb_forall. intros p Hp.
  rewrite forallb_forall in Hall. specialize (Hall p Hp).
  apply andb_prop in Hall as [Hall _]. apply andb_prop in Hall as [H1 _].
  destruct p; [discriminate | reflexivity].
Qed.

(** X1.  The IPv4 pattern of isValidIPv4 decides nothing: whatever it
    matches, the second pattern matches too, so the check is the second
    pattern alone.  The groups of digits are not range-checked, and any
    text with a dot between non-empty parts passes. *)
Theorem isValidIPv4_is_urlPattern :
  forall s, isValidIPv4 s = matches_urlPattern s.
Proof.
  intros s. unfold isValidIPv4.
  destruct (matches_ipv4Pattern s) eqn:E4; cbn [orb].
  - now rewrite (ipv4Pattern_in_urlPattern s E4).
  - now destruct (matches_urlPattern s).
Qed.

(** X2.  isValidIPv4 accepts exactly the texts that are two or more
    non-empty parts without a dot, joined by dots.  So it rejects the empty
    text, a single name without a dot, and every text with a dot at the
    start, at the end or next to another dot. *)
Theorem isValidIPv4_accepts_dotted_names :
  forall s,
    isValidIPv4 s = true <->
    exists l,
      (2 <= List.length l)%nat /\
      Forall (fun p => p <> "" /\ Contains p "." = false) l /\
      s = Join l ".".
Proof.
  intros s. unfold isValidIPv4. split.
  - intros Hv.
    assert (Hu : matches_urlPattern s = true).
    { destruct (matches_ipv4Pattern s) eqn:E4;
        [now apply ipv4Pattern_in_urlPattern|].
      cbn [orb] in Hv. now destruct (matches_urlPattern s). }
    unfold matches_urlPattern in Hu. apply andb_prop in Hu as [Hlen Hall].
    exists (labels s). split; [now apply Nat.leb_le|]. split.
    + rewrite forallb_forall in Hall. apply Forall_forall. intros p Hp. split.
      * specialize (Hall p Hp). apply negb_true_iff in Hall.
        now apply String.eqb_neq in Hall.
      * pose proof (labels_dot_free s) as Hd. rewrite Forall_forall in Hd. auto.
    + symmetry. apply Join_labels.
  - intros (l & Hlen & Hl & ->).
    assert (Hu : matches_urlPattern (Join l ".") = true).
    { unfold matches_urlPattern. rewrite labels_Join.
      - apply andb_true_intro. split; [now apply Nat.leb_le|].
        apply forallb_forall. intros p Hp.
        rewrite Forall_forall in Hl. destruct (Hl p Hp) as [Hne _].
        apply negb_true_iff. now apply String.eqb_neq.
      - destruct l; [cbn in Hlen; lia | discriminate].
      - apply Forall_forall. intros p Hp.
        rewrite Forall_forall in Hl. now destruct (Hl p Hp). }
    rewrite Hu. now rewrite orb_true_r.
Qed.

End Hosts.

(** ** The names of the staged files (ssh.go, randomFileName) *)

Module FileNames.
Import Runner Vocabulary StringFacts.

Lemma hex_digit_is_hex (k : nat) : k < 16 -> is_hex (hex_digit k) = true.
Proof.
  intros Hk.
  do 16 (destruct k as [|k]; [reflexivity|]). lia.
Qed.

Lemma hex_digit_inj (j k : nat) :
  j < 16 -> k < 16 -> hex_digit j = hex_digit k -> j = k.
Proof.
  intros Hj Hk E.
  do 16 (destruct j as [|j];
         [do 16 (destruct k as [|k];
                 [first [reflexivity | vm_compute in E; discriminate E]|]);
          lia|]).
  lia.
Qed.

Lemma byte_halves (b : Byte.byte) :
  Byte.to_nat b / 16 < 16 /\ Byte.to_nat b mod 16 < 16.
Proof.
  pose proof (Byte.to_nat_bounded b) as Hb. split.
  - apply Nat.Div0.div_lt_upper_bound. lia.
  - apply Nat.mod_upper_bound. lia.
Qed.

Lemma byte_of_halves (a b : Byte.byte) :
  Byte.to_nat a / 16 = Byte.to_nat b / 16 ->
  Byte.to_nat a mod 16 = Byte.to_nat b mod 16 ->
  a = b.
Proof.
  intros Hd Hm.
  assert (E : Byte.to_nat a = Byte.to_nat b).
  { rewrite (Nat.div_mod_eq (Byte.to_nat a) 16).
    rewrite (Nat.div_mod_eq (Byte.to_nat b) 16). now rewrite Hd, Hm. }
  pose proof (Byte.of_to_nat a) as Ha. rewrite E, Byte.of_to_nat in Ha.
  congruence.
Qed.

Lemma hex_EncodeToString_inj (bs1 bs2 : list Byte.byte) :
  hex_EncodeToString bs1 = hex_EncodeToString bs2 -> bs1 = bs2.
Proof.
  revert bs2. induction bs1 as [|a bs1 IH]; intros [|b bs2] E;
    try reflexivity; try discriminate E.
  cbn [hex_EncodeToString] in E. injection E as E1 E2 E3.
  destruct (byte_halves a) as [Ha1 Ha2], (byte_halves b) as [Hb1 Hb2].
  f_equal; [|now apply IH].
  apply byte_of_halves; now apply hex_digit_inj.
Qed.

Lemma hex_EncodeToString_length (bs : list Byte.byte) :
  String.length (hex_EncodeToString bs) = 2 * List.length bs.
Proof.
  induction bs as [|b bs IH]; [reflexivity|].
  cbn [hex_EncodeToString String.length List.length]. rewrite IH. lia.
Qed.

Lemma hex_EncodeToString_is_hex (bs : list Byte.byte) :
  all_chars is_hex (hex_EncodeToString bs) = true.
Proof.
  induction bs as [|b bs IH]; [reflexivity|].
  cbn [hex_EncodeToString all_chars].
  destruct (byte_halves b) as [H1 H2].
  now rewrite !hex_digit_is_hex, IH by assumption.
Qed.

Section Names.
Context {W : Type} `{World W}.

(** X3.  randomFileName reads the random source once and returns
    [tmp.] followed by the bytes it got in hexadecimal; two calls give the
    same name exactly when the source gave them the same bytes. *)
Theorem randomFileName_from_random_bytes :
  forall (n : nat) (s s' : St W),
    let bytes := fst (rand_Read n (world s)) in
    fst (randomFileName n s) = "tmp." ++ hex_EncodeToString bytes /\
    String.length (fst (randomFileName n s)) = 4 + 2 * List.length bytes /\
    all_chars is_hex (hex_EncodeToString bytes) = true /\
    world (snd (randomFileName n s)) = snd (rand_Read n (world s)) /\
    trace (snd (randomFileName n s)) = (trace s ++ [EvRandRead n])%list /\
    (fst (randomFileName n s) = fst (randomFileName n s') <->
     bytes = fst (rand_Read n (world s'))).
Proof.
  intros n s s'. cbv zeta.
  unfold randomFileName, bind, call, ret.
  destruct (rand_Read n (world s)) as [bytes w1].
  destruct (rand_Read n (world s')) as [bytes' w1'].
  cbn [fst snd world trace].
  repeat split; trivial.
  - cbn [append String.length]. now rewrite hex_EncodeToString_length.
  - apply hex_EncodeToString_is_hex.
  - intros E. cbn [append] in E. injection E as E.
    now apply hex_EncodeToString_inj.
  - now intros ->.
Qed.

End Names.

Lemma randomFileName_from_random_bytes_witness :
  fst (randomFileName (H := Sim.simWorld []) 8
         (mkSt (Sim.host ("", "", None)) []))
  = "tmp.0123456789abcdef".
Proof.
  apply (proj1 (@randomFileName_from_random_bytes Sim.SimWorld (Sim.simWorld [])
                  8 (mkSt (Sim.host ("", "", None)) [])
                  (mkSt (Sim.host ("", "", None)) []))).
Defined.

End FileNames.

(** ** Staging and running (ssh.go, sendFile and ExecuteScript) *)

Module Staging.
Import Runner Vocabulary Execution.

Lemma writes_app (a b : list Event) : writes (a ++ b) = (writes a ++ writes b)%list.
Proof. apply flat_map_app. Qed.

Lemma creates_app (a b : list Event) :
  creates (a ++ b) = (creates a ++ creates b)%list.
Proof. apply flat_map_app. Qed.

Section Facts.
Context {W : Type} `{World W}.


(** X5.  ExecuteScript runs only what it staged.  Either the script was
    never run, and then the error is the staging or the session failure,
    wrapped, with both outputs empty; or the one file created is the staged
    path, the one text written is the script after substitution, and the
    first command run is the one that makes that file executable and runs
    it (with sudo exactly when asked), followed by nothing or by the
    [rm -f] of that file.  An exit status therefore always comes from the
    run of the script. *)
Theorem ExecuteScript_runs_what_it_staged :
  forall (client : Client) (sc : string) (vars : list Var)
         (suEnabled : bool) (w : W),
    let r := run (ExecuteScript client sc vars suEnabled) w in
    let file := stagedFile w in
    let cmd := runCommand file suEnabled in
    ((runs (trace (snd r)) = [] /\
      exists e,
        fst r = ("", "", Some (ErrorWrap e "Failed to send script to remote host"))
        \/ fst r = ("", "", Some (ErrorWrap e "Failed to create session")))
     \/
     (creates (trace (snd r)) = [file] /\
      writes (trace (snd r)) = [ReplaceVariables sc vars] /\
      (runs (trace (snd r)) = [cmd] \/
       runs (trace (snd r)) = [cmd; ("rm -f " ++ file)%string]))) /\
    (forall status,
        snd (fst r) = Some (ExitError status) ->
        runs (trace (snd r)) = [cmd]).
Proof.
  intros client sc vars suEnabled w.
  cbv beta iota zeta delta
    [run ExecuteScript randomFileName sendFile cleanUpTempFile closeSession
     stagedFile runCommand bind ret call emit logInfo logError].
  cbn [fst snd world trace].
  repeat (step_world; cbn [fst snd world trace]);
    rewrite ?runs_app, ?writes_app, ?creates_app;
    cbn [runs writes creates flat_map app].
  all: split; [|intros status E; first [discriminate E | reflexivity]].
  all: first [ left; split; [reflexivity|]; eexists; left; reflexivity
             | left; split; [reflexivity|]; eexists; right; reflexivity
             | right; repeat split; left; reflexivity
             | right; repeat split; right; reflexivity ].
Qed.

(** X6.  ExecuteScript and the cleanup, in every world.  The [rm -f] of
    the staged file is among the commands run only when ExecuteScript
    returned no error; with any error, an exit status or not, the standard
    output returned is empty; and when it returned no error the cleanup was
    attempted and did not change that: the [rm -f] was run, or the failure
    of the cleanup was logged. *)
Theorem ExecuteScript_cleanup_after_success_only :
  forall (client : Client) (sc : string) (vars : list Var)
         (suEnabled : bool) (w : W),
    let r := run (ExecuteScript client sc vars suEnabled) w in
    let rm := ("rm -f " ++ stagedFile w)%string in
    (In rm (runs (trace (snd r))) -> snd (fst r) = None) /\
    (snd (fst r) <> None -> fst (fst (fst r)) = "") /\
    (snd (fst r) = None ->
     In rm (runs (trace (snd r))) \/
     exists ce, In (EvLogError ce "Failed to clean up temporary file")
                   (trace (snd r))).
Proof.
  intros client sc vars suEnabled w. cbv zeta.
  pose proof (ExecuteScript_outcomes client sc vars suEnabled (mkSt w [])) as O.
  cbv zeta in O. unfold run. cbn [trace world runs flat_map app] in O.
  destruct (snd (fst (ExecuteScript client sc vars suEnabled (mkSt w []))))
    as [e|].
  - destruct O as [Hout Hruns]. repeat split.
    + intros Hin. exfalso.
      destruct Hruns as [Hruns | Hruns]; rewrite Hruns in Hin;
        [contradiction|].
      destruct Hin as [E|[]]. unfold runCommand in E. discriminate E.
    + intros _. exact Hout.
    + discriminate.
  - split; [reflexivity|]. split; [congruence|]. intros _.
    destruct O as [Hruns | [_ Hlog]]; [left | right; exact Hlog].
    rewrite Hruns. right. left. reflexivity.
Qed.

End Facts.

Lemma ExecuteScript_cleanup_after_success_only_witness :
  fst (fst (fst (run (ExecuteScript (H := Sim.simWorld []) (client_handle 0)
                        "echo ok; exit 3" [] false)
                     (Sim.host ("ok", "", Some (ExitError 3))))))
  = "".
Proof.
  apply (proj1 (proj2 (@ExecuteScript_cleanup_after_success_only Sim.SimWorld
                         (Sim.simWorld []) (client_handle 0)
                         "echo ok; exit 3" [] false
                         (Sim.host ("ok", "", Some (ExitError 3)))))).
  discriminate.
Defined.

Lemma ExecuteScript_runs_what_it_staged_witness :
  runs (trace (snd (run (ExecuteScript (H := Sim.simWorld []) (client_handle 0)
                           "exit 3" [] true)
                        (Sim.host ("", "", Some (ExitError 3))))))
  = ["chmod +x /tmp/tmp.0123456789abcdef && sudo /tmp/tmp.0123456789abcdef"].
Proof.
  apply (proj2 (@ExecuteScript_runs_what_it_staged Sim.SimWorld
                  (Sim.simWorld []) (client_handle 0) "exit 3" [] true
                  (Sim.host ("", "", Some (ExitError 3)))) 3%Z).
  reflexivity.
Defined.

End Staging.

(** ** Create, Update and Delete (script.go) *)

Module Phases.
Import Runner Controller Lifecycle.

Lemma outside_app (a b : list Event) :
  outside (a ++ b) = (outside a ++ outside b)%list.
Proof. apply filter_app. Qed.

Lemma GetCondition_SetCondition_same (l : list Condition) (c : Condition) :
  GetCondition (SetCondition l c) (Type_ c) = c.
Proof.
  unfold SetCondition.
  destruct (existsb (fun d => String.eqb (Type_ d) (Type_ c)) l) eqn:E.
  - induction l as [|d l IH]; [discriminate|].
    cbn [existsb] in E. cbn [map GetCondition].
    destruct (String.eqb (Type_ d) (Type_ c)) eqn:Ed.
    + now rewrite String.eqb_refl.
    + rewrite Ed. cbn [orb] in E. now apply IH.
  - induction l as [|d l IH]; cbn [app GetCondition].
    + now rewrite String.eqb_refl.
    + cbn [existsb] in E. apply orb_false_elim in E as [Ed E].
      rewrite Ed. now apply IH.
Qed.

Lemma GetCondition_SetCondition_other (l : list Condition) (c : Condition)
    (ct : string) :
  Type_ c <> ct ->
  GetCondition (SetCondition l c) ct = GetCondition l ct.
Proof.
  intros Hne. apply String.eqb_neq in Hne. unfold SetCondition.
  destruct (existsb (fun d => String.eqb (Type_ d) (Type_ c)) l).
  - induction l as [|d l IH]; [reflexivity|]. cbn [map GetCondition].
    destruct (String.eqb (Type_ d) (Type_ c)) eqn:Ed.
    + rewrite Hne. apply String.eqb_eq in Ed. rewrite Ed, Hne. exact IH.
    + destruct (String.eqb (Type_ d) ct); [reflexivity | exact IH].
  - induction l as [|d l IH]; cbn [app GetCondition].
    + now rewrite Hne.
    + destruct (String.eqb (Type_ d) ct); [reflexivity | exact IH].
Qed.

Ltac quiet_step :=
  cbv beta iota zeta delta [bind ret logInfo emit];
  cbn [fst snd world trace];
  rewrite ?outside_app; cbn [outside filter is_log negb app];
  rewrite ?app_nil_r.

Ltac quiet_done :=
  cbn [fst snd world trace];
  rewrite ?outside_app; cbn [outside filter is_log negb app];
  rewrite ?app_nil_r; reflexivity.

Section Facts.
Context {W : Type} `{World W}.

(** X7.  A resource that is not a Script: each of the four operations
    returns the error that says so, leaves the resource as it is, and calls
    nothing outside the process; the client is not looked at. *)
Theorem operations_refuse_other_kinds :
  forall (c : external) (name : string) (s : St W),
    let mg := OtherResource name in
    let refused := Some (ErrorNew errNotScript) in
    (exists st, Controller.Observe c mg s
                = (Returns (mg, emptyObservation, refused), st)
                /\ world st = world s /\ outside (trace st) = outside (trace s)) /\
    (exists st, Create c mg s
                = (Returns (mg, mkExternalCreation None, refused), st)
                /\ world st = world s /\ outside (trace st) = outside (trace s)) /\
    (exists st, Update c mg s
                = (Returns (mg, mkExternalUpdate None, refused), st)
                /\ world st = world s /\ outside (trace st) = outside (trace s)) /\
    (exists st, Delete c mg s = (Returns refused, st)
                /\ world st = world s /\ outside (trace st) = outside (trace s)).
Proof.
  intros c name s. cbv zeta.
  unfold Controller.Observe, Create, Update, Delete.
  repeat split; eexists; quiet_step; repeat split; quiet_done.
Qed.

(** X8.  An empty script body skips the phase: Create, Update and Delete
    succeed, leave the resource as it is and call nothing outside the
    process, also when there is no client. *)
Theorem empty_body_skips_phase :
  forall (c : external) (cr : Script) (s : St W),
    (InitScript (ForProvider cr) = "" ->
     exists st, Create c (ScriptResource cr) s
                = (Returns (ScriptResource cr, mkExternalCreation (Some []), None), st)
                /\ world st = world s /\ outside (trace st) = outside (trace s)) /\
    (UpdateScript (ForProvider cr) = "" ->
     exists st, Update c (ScriptResource cr) s
                = (Returns (ScriptResource cr, mkExternalUpdate (Some []), None), st)
                /\ world st = world s /\ outside (trace st) = outside (trace s)) /\
    (CleanupScript (ForProvider cr) = "" ->
     exists st, Delete c (ScriptResource cr) s = (Returns None, st)
                /\ world st = world s /\ outside (trace st) = outside (trace s)).
Proof.
  intros c cr s. unfold Create, Update, Delete.
  repeat split; intros ->; cbn [String.eqb negb];
    eexists; quiet_step; repeat split; quiet_done.
Qed.

(** X9.  Without a client, a phase that has a script to run panics on
    the type assertion before anything is sent: Create, Update, Delete, and
    Observe for a resource that is not being deleted. *)
Theorem no_client_panics_before_sending :
  forall (cr : Script) (s : St W),
    let c := mkExternal None in
    (InitScript (ForProvider cr) <> "" ->
     exists msg st, Create c (ScriptResource cr) s = (Panics msg, st)
                    /\ world st = world s
                    /\ outside (trace st) = outside (trace s)) /\
    (UpdateScript (ForProvider cr) <> "" ->
     exists msg st, Update c (ScriptResource cr) s = (Panics msg, st)
                    /\ world st = world s
                    /\ outside (trace st) = outside (trace s)) /\
    (CleanupScript (ForProvider cr) <> "" ->
     exists msg st, Delete c (ScriptResource cr) s = (Panics msg, st)
                    /\ world st = world s
                    /\ outside (trace st) = outside (trace s)) /\
    (StatusCheckScript (ForProvider cr) <> "" -> isBeingDeleted cr = false ->
     exists msg st, Controller.Observe c (ScriptResource cr) s = (Panics msg, st)
                    /\ world st = world s
                    /\ outside (trace st) = outside (trace s)).
Proof.
  intros cr s. cbv zeta.
  unfold Create, Update, Delete, Controller.Observe. cbn [service].
  repeat split; intros Hne; try intros Hdel;
    apply String.eqb_neq in Hne; rewrite ?Hdel, Hne; cbn [negb];
    do 2 eexists; quiet_step; repeat split; quiet_done.
Qed.


End Facts.

Lemma empty_body_skips_phase_witness :
  exists st,
    Update (H := Sim.simWorld []) (mkExternal None)
      (ScriptResource (Sim.sampleScript "exit 0" []))
      (mkSt (Sim.host ("", "", None)) [])
    = (Returns (ScriptResource (Sim.sampleScript "exit 0" []),
                mkExternalUpdate (Some []), None), st)
    /\ outside (trace st) = [].
Proof.
  destruct (@empty_body_skips_phase Sim.SimWorld (Sim.simWorld [])
              (mkExternal None) (Sim.sampleScript "exit 0" [])
              (mkSt (Sim.host ("", "", None)) []))
    as (_ & HU & _).
  destruct (HU eq_refl) as (st & HUp & _ & Ho).
  exists st. split; [exact HUp | exact Ho].
Defined.

Lemma no_client_panics_before_sending_witness :
  exists msg st,
    Create (H := Sim.simWorld []) (mkExternal None)
      (ScriptResource (Sim.sampleScript "exit 0" []))
      (mkSt (Sim.host ("", "", None)) [])
    = (Panics msg, st)
    /\ outside (trace st) = [].
Proof.
  destruct (@no_client_panics_before_sending Sim.SimWorld (Sim.simWorld [])
              (Sim.sampleScript "exit 0" [])
              (mkSt (Sim.host ("", "", None)) []))
    as (HC & _ & _ & _).
  destruct (HC ltac:(discriminate)) as (msg & st & HCr & _ & Ho).
  exists msg, st. split; [exact HCr | exact Ho].
Defined.


End Phases.

(** ** What Observe leaves in the resource (script.go, Observe) *)

Module Observed.
Import Runner Controller Lifecycle Phases Execution.

Section Facts.
Context {W : Type} `{World W}.

(** X11.  What a run of the status-check script leaves in the resource.
    The parameters are never changed and the standard error recorded is
    that of the run.  After a run without error the standard output is
    recorded, the Ready condition is Available, and the status code is not
    reset: it stays what an earlier run left.  After a run with an error
    the standard output recorded is empty, the status code is the exit
    status (1 when there is none), the Ready condition is as it was, and
    the conditions change only for status code 1, where Synced becomes the
    reconcile error. *)
Theorem Observe_records_the_run :
  forall (c : external) (client : Client) (cr : Script) (s : St W),
    service c = Some client ->
    isBeingDeleted cr = false ->
    StatusCheckScript (ForProvider cr) <> "" ->
    let ran := ExecuteScript client (StatusCheckScript (ForProvider cr))
                 (Variables (ForProvider cr)) (SudoEnabled (ForProvider cr))
                 (snd (logInfo ("[" ++ ObjectName cr ++ "] Observing...") [] s)) in
    exists cr' obs err st,
      Controller.Observe c (ScriptResource cr) s
      = (Returns (ScriptResource cr', obs, err), st) /\
      ForProvider cr' = ForProvider cr /\
      Stderr (AtProvider cr') = snd (fst (fst ran)) /\
      match snd (fst ran) with
      | None =>
          Stdout (AtProvider cr') = fst (fst (fst ran)) /\
          StatusCode (AtProvider cr') = StatusCode (AtProvider cr) /\
          GetCondition (Conditions cr') TypeReady = Available /\
          GetCondition (Conditions cr') TypeSynced
          = GetCondition (Conditions cr) TypeSynced
      | Some e =>
          Stdout (AtProvider cr') = "" /\
          StatusCode (AtProvider cr')
          = match asExitError e with Some status => status | None => 1%Z end /\
          GetCondition (Conditions cr') TypeReady
          = GetCondition (Conditions cr) TypeReady /\
          (StatusCode (AtProvider cr') <> 1%Z -> Conditions cr' = Conditions cr) /\
          (StatusCode (AtProvider cr') = 1%Z ->
           GetCondition (Conditions cr') TypeSynced
           = ReconcileError (ErrorWrap e "Script failed with exit code 1."))
      end.
Proof.
  intros c client cr s Hsvc Hdel Hbody. cbv zeta.
  unfold Controller.Observe. cbn [GetName]. unfold bind at 1.
  cbv beta iota zeta delta [logInfo emit]. cbn [fst snd].
  rewrite Hdel. apply String.eqb_neq in Hbody. rewrite Hbody. cbn [negb].
  rewrite Hsvc. unfold bind at 1.
  match goal with
  | |- context [ExecuteScript ?a ?b ?c ?d ?e] =>
      pose proof (ExecuteScript_outcomes a b c d e) as O; cbv zeta in O;
      destruct (ExecuteScript a b c d e) as [[[stdout stderr] [e0|]] st]
  end; cbn [fst snd] in *.
  - destruct O as [-> _].
    assert (Hexit : exists code,
               code = match asExitError e0 with Some st0 => st0 | None => 1%Z end)
      by now eexists.
    destruct Hexit as [code Hcode].
    destruct (asExitError e0) as [status|];
      cbv beta iota zeta delta [bind ret emit]; cbn [fst snd]; subst code.
    + destruct (status =? 1)%Z eqn:E1; [|destruct (status =? 100)%Z].
      * do 4 eexists. split; [reflexivity|].
        cbn [SetConditions withAtProvider AtProvider ForProvider Conditions
             Stdout Stderr StatusCode].
        apply Z.eqb_eq in E1. subst status.
        repeat split; try congruence.
        -- now apply GetCondition_SetCondition_other.
        -- intros _. apply (GetCondition_SetCondition_same (Conditions cr)).
      * do 4 eexists. split; [reflexivity|].
        cbn [withAtProvider AtProvider ForProvider Conditions
             Stdout Stderr StatusCode].
        apply Z.eqb_neq in E1. repeat split; congruence.
      * do 4 eexists. split; [reflexivity|].
        cbn [withAtProvider AtProvider ForProvider Conditions
             Stdout Stderr StatusCode].
        apply Z.eqb_neq in E1. repeat split; congruence.
    + cbn [Z.eqb Pos.eqb]. do 4 eexists. split; [reflexivity|].
      cbn [SetConditions withAtProvider AtProvider ForProvider Conditions
           Stdout Stderr StatusCode].
      repeat split; try congruence.
      * now apply GetCondition_SetCondition_other.
      * intros _. apply (GetCondition_SetCondition_same (Conditions cr)).
  - cbv beta iota zeta delta [bind ret emit]. cbn [fst snd].
    do 4 eexists. split; [reflexivity|].
    cbn [SetConditions withAtProvider AtProvider ForProvider Conditions
         Stdout Stderr StatusCode].
    repeat split.
    + apply (GetCondition_SetCondition_same (Conditions cr) Available).
    + now apply GetCondition_SetCondition_other.
Qed.

(** X12.  A resource that is being deleted: Observe reports that it does
    not exist, leaves it as it is and calls nothing outside the process,
    whatever the status-check script is and also when there is no client. *)
Theorem Observe_of_deleted_resource_is_quiet :
  forall (c : external) (cr : Script) (s : St W),
    isBeingDeleted cr = true ->
    exists st,
      Controller.Observe c (ScriptResource cr) s
      = (Returns (ScriptResource cr, mkExternalObservation false false None,
                  None), st) /\
      world st = world s /\
      outside (trace st) = outside (trace s).
Proof.
  intros c cr s Hdel. unfold Controller.Observe. rewrite Hdel.
  eexists. quiet_step. repeat split; quiet_done.
Qed.

End Facts.

Lemma Observe_records_the_run_witness :
  exists cr' obs err st,
    Controller.Observe (H := Sim.simWorld [])
      (mkExternal (Some (client_handle 0)))
      (ScriptResource (Sim.sampleScript "exit 0" []))
      (mkSt (Sim.host ("up", "", None)) [])
    = (Returns (ScriptResource cr', obs, err), st)
    /\ Stdout (AtProvider cr') = "up"
    /\ GetCondition (Conditions cr') TypeReady = Available.
Proof.
  destruct (@Observe_records_the_run Sim.SimWorld (Sim.simWorld [])
              (mkExternal (Some (client_handle 0))) (client_handle 0)
              (Sim.sampleScript "exit 0" [])
              (mkSt (Sim.host ("up", "", None)) [])
              eq_refl eq_refl ltac:(discriminate))
    as (cr' & obs & err & st & HO & _ & _ & Hout & _ & Hready & _).
  exists cr', obs, err, st.
  split; [exact HO|]. split; [exact Hout | exact Hready].
Defined.

Lemma Observe_of_deleted_resource_is_quiet_witness :
  exists st,
    Controller.Observe (H := Sim.simWorld []) (mkExternal None)
      (ScriptResource (Sim.sampleScript "exit 0" [Deleting]))
      (mkSt (Sim.host ("", "", None)) [])
    = (Returns (ScriptResource (Sim.sampleScript "exit 0" [Deleting]),
                mkExternalObservation false false None, None), st)
    /\ outside (trace st) = [].
Proof.
  destruct (@Observe_of_deleted_resource_is_quiet Sim.SimWorld
              (Sim.simWorld []) (mkExternal None)
              (Sim.sampleScript "exit 0" [Deleting])
              (mkSt (Sim.host ("", "", None)) []) eq_refl)
    as (st & HO & _ & Ho).
  exists st. split; [exact HO | exact Ho].
Defined.

End Observed.

(** ** Further facts on NewSSHClient (ssh.go) *)

Module Dialling.
Import SSHClient Lifecycle Vocabulary Phases.

Ltac outside_steps :=
  cbv beta iota zeta delta [bind ret call logInfo logError emit];
  cbn [fst snd world trace];
  rewrite ?outside_app; cbn [outside filter is_log negb app];
  rewrite ?app_nil_r.

Section Facts.
Context {W : Type} `{World W}.





(** X14.  The checks of NewSSHClient, in their order, each with its own
    error and with nothing done before it returns: a payload that does not
    decode; then an empty user name; then an empty host; then a host that
    isValidIPv4 refuses, named in the error; then known hosts that the
    library refuses, with nothing dialled and no error logged. *)
Theorem NewSSHClient_checks_in_order :
  forall (data : string) (w : W),
    (forall e, json_Unmarshal data = inr e ->
       run (NewSSHClient data) w
       = ((None, Some (ErrorWrap e "Cannot parse credentials")), mkSt w [])) /\
    (forall kc, json_Unmarshal data = inl kc ->
       (Username kc = "" ->
        run (NewSSHClient data) w
        = ((None, Some (ErrorNew "Username key not found in the data")),
           mkSt w [])) /\
       (Username kc <> "" -> RemoteHostIP kc = "" ->
        run (NewSSHClient data) w
        = ((None, Some (ErrorNew "Remote host key not found in the data")),
           mkSt w [])) /\
       (Username kc <> "" -> RemoteHostIP kc <> "" ->
        isValidIPv4 (RemoteHostIP kc) = false ->
        run (NewSSHClient data) w
        = ((None, Some (ErrorNew ("Remote host address is not a valid: "
                                  ++ RemoteHostIP kc))), mkSt w [])) /\
       (Username kc <> "" -> RemoteHostIP kc <> "" ->
        isValidIPv4 (RemoteHostIP kc) = true ->
        KnownHosts kc <> "" ->
        forall e, knownhosts_New (KnownHosts kc) = inr e ->
          fst (run (NewSSHClient data) w)
          = (None, Some (ErrorWrap e "Failed to create known hosts callback"))
          /\ world (snd (run (NewSSHClient data) w)) = w
          /\ outside (trace (snd (run (NewSSHClient data) w))) = []
          /\ forall err msg,
               ~ In (EvLogError err msg)
                    (trace (snd (run (NewSSHClient data) w))))).
Proof.
  intros data w. split.
  - intros e E. unfold run, NewSSHClient. now rewrite E.
  - intros kc E. unfold run, NewSSHClient. rewrite E. unfold connectConfig.
    split; [|split; [|split]].
    + intros ->. reflexivity.
    + intros Hu ->. apply String.eqb_neq in Hu. now rewrite Hu.
    + intros Hu Hh Hv. apply String.eqb_neq in Hu, Hh.
      now rewrite Hu, Hh, Hv.
    + intros Hu Hh Hv Hk e Hke. apply String.eqb_neq in Hu, Hh, Hk.
      rewrite Hu, Hh, Hv, Hk, Hke. cbn [negb].
      destruct (String.eqb (RemoteHostPort kc) ""); outside_steps;
        (split; [reflexivity|]); (split; [reflexivity|]);
        (split; [reflexivity|]);
        intros err msg Hin; cbn [In] in Hin;
        repeat (destruct Hin as [Hin|Hin]; try discriminate Hin);
        contradiction.
Qed.

(** X15.  Every dial of NewSSHClient is a TCP dial to host, colon, port,
    where the port of the payload is taken as it is and is 22 when it is
    empty; the user is the user name of the payload; and the host key
    check is the one that accepts every key when the payload has no known
    hosts, the callback of the known hosts otherwise. *)
Theorem NewSSHClient_dial_target :
  forall (data : string) (kc : Config) (w : W) (network addr : string)
         (cfg : ClientConfig),
    json_Unmarshal data = inl kc ->
    In (EvDial network addr cfg) (trace (snd (run (NewSSHClient data) w))) ->
    network = "tcp" /\
    addr = RemoteHostIP kc ++ ":"
           ++ (if String.eqb (RemoteHostPort kc) "" then "22"
               else RemoteHostPort kc) /\
    User cfg = Username kc /\
    (KnownHosts kc = "" -> HostKeyCallback_ cfg = Some InsecureIgnoreHostKey) /\
    (KnownHosts kc <> "" ->
     exists cb, knownhosts_New (KnownHosts kc) = inl cb /\
                HostKeyCallback_ cfg = Some cb).
Proof.
  intros data kc w network addr cfg E Hin.
  unfold run in Hin. rewrite (Connection.NewSSHClient_decoded data kc _ E) in Hin.
  assert (Hin' : In (EvDial network addr cfg)
                    (dials (trace (snd (run (connectConfig kc) w)))))
    by (apply filter_In; split; [exact Hin | reflexivity]).
  destruct (Connection.connectConfig_dials kc w)
    as [[_ Hd]|(ms & cb & k & _ & _ & Hcb & _ & Hd)];
    cbv zeta in Hd; rewrite Hd in Hin'; [contradiction|].
  apply repeat_spec in Hin'. injection Hin' as -> -> ->.
  unfold chosenCallback in Hcb. cbn [User HostKeyCallback_].
  repeat split.
  - intros Hk. rewrite Hk in Hcb. cbn [String.eqb negb] in Hcb. congruence.
  - intros Hk. apply String.eqb_neq in Hk. rewrite Hk in Hcb. cbn [negb] in Hcb.
    now exists cb.
Qed.

End Facts.

Lemma NewSSHClient_checks_in_order_witness :
  fst (run (NewSSHClient (H := Sim.simWorld [("no-user",
              mkConfig "10.29.30.5" "22" "" "secret" "" "")]) "no-user")
         (Sim.network [inl (client_handle 7)]))
  = (None, Some (ErrorNew "Username key not found in the data")).
Proof.
  rewrite (proj1 (proj2 (@NewSSHClient_checks_in_order Sim.SimWorld
                           (Sim.simWorld [("no-user",
                              mkConfig "10.29.30.5" "22" "" "secret" "" "")])
                           "no-user" (Sim.network [inl (client_handle 7)]))
                    (mkConfig "10.29.30.5" "22" "" "secret" "" "") eq_refl)
             eq_refl).
  reflexivity.
Defined.

Lemma NewSSHClient_dial_target_witness :
  "10.29.30.5:22"
  = RemoteHostIP (Sim.sampleConfig "secret" "") ++ ":"
    ++ (if String.eqb (RemoteHostPort (Sim.sampleConfig "secret" "")) ""
        then "22" else RemoteHostPort (Sim.sampleConfig "secret" "")).
Proof.
  apply (@NewSSHClient_dial_target Sim.SimWorld (Sim.simWorld Sim.payloads)
           "password-only" (Sim.sampleConfig "secret" "")
           (Sim.network [inl (client_handle 7)]) "tcp" "10.29.30.5:22"
           (mkClientConfig "ubuntu" [PasswordAuth "secret"]
              (Some InsecureIgnoreHostKey)) eq_refl).
  left. reflexivity.
Defined.

End Dialling.

(** ** Connect (script.go) *)

Module Connecting.
Import SSHClient Controller Lifecycle Connector Phases Dialling.

Ltac connect_steps :=
  cbv beta iota zeta delta [bind ret cluster logInfo emit];
  cbn [fst snd world trace];
  rewrite ?outside_app; cbn [outside filter is_log negb app];
  rewrite ?app_nil_r.

Ltac connect_unfold :=
  cbv beta iota zeta delta
    [Connect setupConnector bind ret cluster logInfo emit];
  cbn [GetName newServiceFn fst snd world trace].

Section Facts.
Context {W PC : Type} `{World W} `{Cluster W PC}.


(** X16.  Connect for a resource that is being deleted: once the usage is
    tracked and the provider configuration is fetched, it returns a client
    without service and no error; the credentials are not read and nothing
    is dialled, whatever the connector is.  Observe on that client reports
    that the resource does not exist, without a panic and without a call. *)
Theorem Connect_skips_deleted_resource :
  forall (c : connector W) (cr : Script) (ref : string) (s : St W) (pc : PC),
    isBeingDeleted cr = true ->
    let mg := ScriptResource cr in
    let w1 := snd (usage_Track mg (world s)) in
    fst (usage_Track mg (world s)) = None ->
    fst (kube_Get ref w1) = inl pc ->
    let r := Connect c mg ref s in
    fst r = (Some (mkExternal None), None) /\
    world (snd r) = snd (kube_Get ref w1) /\
    outside (trace (snd r)) = outside (trace s) /\
    forall s2,
      exists st,
        Controller.Observe (mkExternal None) mg s2
        = (Returns (mg, mkExternalObservation false false None, None), st) /\
        world st = world s2 /\ outside (trace st) = outside (trace s2).
Proof.
  intros c cr ref s pc Hdel mg w1 Ht Hg. cbv zeta. subst mg w1.
  connect_unfold. rewrite Hdel.
  destruct (usage_Track (ScriptResource cr) (world s)) as [t w1].
  cbn [fst snd] in *. subst t. cbn [fst snd world trace].
  destruct (kube_Get ref w1) as [g w2]. cbn [fst snd] in *. subst g.
  cbn [fst snd world trace].
  split; [reflexivity|]. split; [reflexivity|]. split; [quiet_done|].
  intros s2. unfold Controller.Observe. rewrite Hdel.
  eexists. quiet_step. repeat split; quiet_done.
Qed.

(** X17.  Connect, its failures in order.  A usage that cannot be
    tracked, a provider configuration that cannot be fetched, credentials
    that cannot be read and a client that cannot be made each end the call
    with the cause wrapped in its own message; nothing that comes later is
    called: the world is as the failing call left it and nothing is
    dialled before the client is made. *)
Theorem Connect_failures_in_order :
  forall (c : connector W) (cr : Script) (ref : string) (s : St W),
    let mg := ScriptResource cr in
    let r := Connect c mg ref s in
    let w1 := snd (usage_Track mg (world s)) in
    let w2 := snd (kube_Get ref w1) in
    (forall e, fst (usage_Track mg (world s)) = Some e ->
       fst r = (None, Some (ErrorWrap e errTrackPCUsage)) /\
       world (snd r) = w1 /\ outside (trace (snd r)) = outside (trace s)) /\
    (fst (usage_Track mg (world s)) = None ->
     (forall e, fst (kube_Get ref w1) = inr e ->
        fst r = (None, Some (ErrorWrap e errGetPC)) /\
        world (snd r) = w2 /\ outside (trace (snd r)) = outside (trace s)) /\
     (forall pc, fst (kube_Get ref w1) = inl pc ->
        isBeingDeleted cr = false ->
        let w3 := snd (CommonCredentialExtractor pc w2) in
        (forall e, fst (CommonCredentialExtractor pc w2) = inr e ->
           fst r = (None, Some (ErrorWrap e errGetCreds)) /\
           world (snd r) = w3 /\
           outside (trace (snd r)) = outside (trace s)) /\
        (forall data, fst (CommonCredentialExtractor pc w2) = inl data ->
           let made :=
             newServiceFn c data
               (mkSt w3 (trace s ++ [EvLogInfo ("[" ++ ObjectName cr
                                       ++ "] Creating connection...") []])) in
           (forall svc e, fst made = (svc, Some e) ->
              fst r = (None, Some (ErrorWrap e errNewClient)) /\
              snd r = snd made) /\
           (forall svc, fst made = (svc, None) ->
              fst r = (Some (mkExternal svc), None) /\
              world (snd r) = world (snd made) /\
              outside (trace (snd r)) = outside (trace (snd made)))))).
Proof.
  intros c cr ref s. cbv zeta. connect_unfold.
  destruct (usage_Track (ScriptResource cr) (world s)) as [t w1].
  cbn [fst snd world trace]. split.
  { intros e ->. repeat split; quiet_done. }
  intros ->. cbv beta iota. cbn [fst snd world trace].
  destruct (kube_Get ref w1) as [g w2]. cbn [fst snd world trace]. split.
  { intros e ->. repeat split; quiet_done. }
  intros pc -> Hdel. rewrite Hdel. cbv beta iota. cbn [fst snd world trace].
  destruct (CommonCredentialExtractor pc w2) as [d w3].
  cbn [fst snd world trace]. split.
  { intros e ->. repeat split; quiet_done. }
  intros data ->. cbv beta iota. cbn [fst snd world trace].
  match goal with
  | |- context [newServiceFn c data ?s0] =>
      destruct (newServiceFn c data s0) as [[svc' err] st]
  end. cbn [fst snd]. split.
  - intros svc e E. injection E as -> ->. split; reflexivity.
  - intros svc E. injection E as -> ->.
    repeat split; quiet_done.
Qed.


End Facts.

Lemma Connect_skips_deleted_resource_witness :
  fst (Connect
         (H0 := SimCluster.simCluster None (inl "password-only")
                  (inl "password-only"))
         (setupConnector (H := Sim.simWorld Sim.payloads))
         (ScriptResource (Sim.sampleScript "exit 0" [Deleting]))
         "default" (mkSt (Sim.network []) []))
  = (Some (mkExternal None), None).
Proof.
  apply (@Connect_skips_deleted_resource Sim.SimWorld string
           (Sim.simWorld Sim.payloads)
           (SimCluster.simCluster None (inl "password-only")
              (inl "password-only"))
           setupConnector (Sim.sampleScript "exit 0" [Deleting]) "default"
           (mkSt (Sim.network []) []) "password-only"
           eq_refl eq_refl eq_refl).
Defined.

Lemma Connect_failures_in_order_witness :
  fst (Connect
         (H0 := SimCluster.simCluster None
                  (inr (ErrorNew "providerconfig not found"))
                  (inl "password-only"))
         (setupConnector (H := Sim.simWorld Sim.payloads))
         (ScriptResource (Sim.sampleScript "exit 0" []))
         "default" (mkSt (Sim.network []) []))
  = (None, Some (ErrorWrap (ErrorNew "providerconfig not found") errGetPC)).
Proof.
  destruct (@Connect_failures_in_order Sim.SimWorld string
              (SimCluster.simCluster None
                 (inr (ErrorNew "providerconfig not found"))
                 (inl "password-only"))
              (setupConnector (H := Sim.simWorld Sim.payloads))
              (Sim.sampleScript "exit 0" []) "default"
              (mkSt (Sim.network []) []))
    as (_ & Hrest).
  destruct (Hrest eq_refl) as (Hget & _).
  exact (proj1 (Hget (ErrorNew "providerconfig not found") eq_refl)).
Defined.


End Connecting.

(** ** Variables with the same name (ssh.go, ReplaceVariables) *)

Module Duplicates.
Import StringFacts SubstFacts.

(** X19.  Two variables with the same name: the one that comes first in
    the list is the one that is substituted.  Once its pass has left no
    placeholder of that name in the text, a later variable of the same name
    changes nothing, whatever its value is. *)
Theorem ReplaceVariables_first_duplicate_wins :
  forall (S n v1 v2 : string) (V : list Var),
    Contains (ReplaceAll S (placeholder n) v1) (placeholder n) = false ->
    ReplaceVariables S (mkVar n v1 :: mkVar n v2 :: V)
    = ReplaceVariables S (mkVar n v1 :: V).
Proof.
  intros S n v1 v2 V Hc. cbn [ReplaceVariables Name Value].
  now rewrite (ReplaceAll_no_occurrence _ (placeholder n) v2 Hc).
Qed.

Lemma ReplaceVariables_first_duplicate_wins_witness :
  ReplaceVariables "ping {{HOST}}" [mkVar "HOST" "10.0.0.1"; mkVar "HOST" "10.0.0.2"]
  = ReplaceVariables "ping {{HOST}}" [mkVar "HOST" "10.0.0.1"].
Proof.
  apply (ReplaceVariables_first_duplicate_wins "ping {{HOST}}" "HOST"
           "10.0.0.1" "10.0.0.2" []).
  reflexivity.
Defined.

End Duplicates.

(** ** The earlier revision of the controller (script.go, second part) *)

Module EarlierFacts.
Import Runner Controller Lifecycle Phases.

Section Facts.
Context {W : Type} `{World W}.

(** X20.  Observe of the earlier revision (script.go after line 284),
    for a run of the status-check script.  It never returns an error: a run
    that fails, whatever its exit status, is reported as a resource that
    does not exist, with status code 1 and the conditions left alone.  Its
    observation and error are those of the current Observe exactly when the
    run returns no error or exit status 100. *)
Theorem earlier_Observe_reports_failure_as_absent :
  forall (c : external) (client : Client) (cr : Script) (s : St W),
    service c = Some client ->
    isBeingDeleted cr = false ->
    StatusCheckScript (ForProvider cr) <> "" ->
    let ran := ExecuteScript client (StatusCheckScript (ForProvider cr))
                 (Variables (ForProvider cr)) (SudoEnabled (ForProvider cr))
                 (snd (logInfo ("[" ++ ObjectName cr ++ "] Observing...") [] s)) in
    let rerr := snd (fst ran) in
    let ok := match rerr with None => true | Some _ => false end in
    exists cr' st cur_mg cur_obs cur_err cur_st,
      Earlier.Observe c (ScriptResource cr) s
      = (Returns (ScriptResource cr', mkExternalObservation ok ok None, None), st) /\
      Controller.Observe c (ScriptResource cr) s
      = (Returns (cur_mg, cur_obs, cur_err), cur_st) /\
      world st = world (snd ran) /\
      (rerr <> None ->
       StatusCode (AtProvider cr') = 1%Z /\ Conditions cr' = Conditions cr) /\
      ((cur_obs, cur_err) = (mkExternalObservation ok ok None, None) <->
       rerr = None \/ exists e, rerr = Some e /\ asExitError e = Some 100%Z).
Proof.
  intros c client cr s Hsvc Hdel Hbody. cbv zeta.
  unfold Earlier.Observe, Controller.Observe. cbn [GetName].
  apply String.eqb_neq in Hbody. rewrite Hdel, Hbody, Hsvc. cbn [negb].
  cbv beta iota zeta delta [bind logInfo emit]. cbn [fst snd].
  match goal with
  | |- context [ExecuteScript ?a ?b ?c ?d ?e] =>
      destruct (ExecuteScript a b c d e) as [[[out eo] [e0|]] st']
  end; cbn [fst snd ret].
  - destruct (asExitError e0) as [status|] eqn:Ea; cbn [ret fst snd].
    + destruct (status =? 1)%Z eqn:E1; [|destruct (status =? 100)%Z eqn:E100];
        do 6 eexists; (split; [reflexivity|]); (split; [reflexivity|]);
        cbn [trace world withAtProvider AtProvider Conditions StatusCode];
        repeat split; try reflexivity; try discriminate.
      * intros [E|(e & E & Ex)]; [discriminate|].
        injection E as <-. rewrite Ea in Ex. injection Ex as ->. discriminate.
      * intros _. right. exists e0. split; [reflexivity|].
        apply Z.eqb_eq in E100. now subst.
      * intros [E|(e & E & Ex)]; [discriminate|].
        injection E as <-. rewrite Ea in Ex. injection Ex as ->. discriminate.
    + do 6 eexists; (split; [reflexivity|]); (split; [reflexivity|]).
      cbn [trace world withAtProvider AtProvider Conditions StatusCode].
      repeat split; try reflexivity; try discriminate.
      intros [E|(e & E & Ex)]; [discriminate|].
      injection E as <-. rewrite Ea in Ex. discriminate.
  - do 6 eexists; (split; [reflexivity|]); (split; [reflexivity|]).
    cbn [trace world]. repeat split; try reflexivity; try congruence.
    intros _. now left.
Qed.

(** X21.  Create and Update of the earlier revision (script.go after
    line 284).  Create returns
    the error of ExecuteScript as it is; when the run fails the Ready
    condition becomes Unavailable and the rest of the resource is as it
    was; when it succeeds the status code is set to 0 and nothing else
    changes.  Update does nothing at all, for any resource. *)
Theorem earlier_Create_and_Update :
  forall (c : external) (client : Client) (cr : Script) (s : St W),
    service c = Some client ->
    (InitScript (ForProvider cr) <> "" ->
     let ran := ExecuteScript client (InitScript (ForProvider cr))
                  (Variables (ForProvider cr)) (SudoEnabled (ForProvider cr))
                  (snd (logInfo ("[" ++ ObjectName cr
                                 ++ "] Creating init script...") [] s)) in
     exists cr' details,
       Earlier.Create c (ScriptResource cr) s
       = (Returns (ScriptResource cr', details, snd (fst ran)), snd ran) /\
       ForProvider cr' = ForProvider cr /\
       Stdout (AtProvider cr') = Stdout (AtProvider cr) /\
       Stderr (AtProvider cr') = Stderr (AtProvider cr) /\
       GetCondition (Conditions cr') TypeSynced
       = GetCondition (Conditions cr) TypeSynced /\
       match snd (fst ran) with
       | None =>
           StatusCode (AtProvider cr') = 0%Z /\ Conditions cr' = Conditions cr
       | Some _ =>
           StatusCode (AtProvider cr') = StatusCode (AtProvider cr) /\
           GetCondition (Conditions cr') TypeReady = Earlier.Unavailable
       end) /\
    (forall mg, Earlier.Update c mg s
                = (Returns (mg, mkExternalUpdate (Some []), None), s)).
Proof.
  intros c client cr s Hsvc. split; [|reflexivity].
  intros Hne. cbv zeta. unfold Earlier.Create. cbn [GetName].
  apply String.eqb_neq in Hne. rewrite Hne, Hsvc. cbn [negb].
  cbv beta iota zeta delta [bind logInfo emit]. cbn [fst snd].
  match goal with
  | |- context [ExecuteScript ?a ?b ?c ?d ?e] =>
      destruct (ExecuteScript a b c d e) as [[[out eo] [e0|]] st']
  end; cbn [fst snd ret]; do 2 eexists; (split; [reflexivity|]);
    cbn [SetConditions Earlier.withStatusCode withAtProvider AtProvider
         ForProvider Conditions Stdout Stderr StatusCode];
    repeat split.
  - now apply GetCondition_SetCondition_other.
  - apply (GetCondition_SetCondition_same (Conditions cr) Earlier.Unavailable).
Qed.

End Facts.

Lemma earlier_Observe_reports_failure_as_absent_witness :
  exists cr' st,
    Earlier.Observe (H := Sim.simWorld [])
      (mkExternal (Some (client_handle 0)))
      (ScriptResource (Sim.sampleScript "exit 0" []))
      (mkSt (Sim.host ("", "", Some (ExitError 7))) [])
    = (Returns (ScriptResource cr', mkExternalObservation false false None,
                None), st)
    /\ StatusCode (AtProvider cr') = 1%Z.
Proof.
  destruct (@earlier_Observe_reports_failure_as_absent Sim.SimWorld
              (Sim.simWorld []) (mkExternal (Some (client_handle 0)))
              (client_handle 0) (Sim.sampleScript "exit 0" [])
              (mkSt (Sim.host ("", "", Some (ExitError 7))) [])
              eq_refl eq_refl ltac:(discriminate))
    as (cr' & st & _ & _ & _ & _ & HO & _ & _ & Hcode & _).
  exists cr', st. split; [exact HO|].
  exact (proj1 (Hcode ltac:(discriminate))).
Defined.

Lemma earlier_Create_and_Update_witness :
  exists cr' details st,
    Earlier.Create (H := Sim.simWorld [])
      (mkExternal (Some (client_handle 0)))
      (ScriptResource (Sim.sampleScript "exit 0" []))
      (mkSt (Sim.host ("", "", Some (ExitError 2))) [])
    = (Returns (ScriptResource cr', details, Some (ExitError 2)), st)
    /\ GetCondition (Conditions cr') TypeReady = Earlier.Unavailable.
Proof.
  destruct (@earlier_Create_and_Update Sim.SimWorld (Sim.simWorld [])
              (mkExternal (Some (client_handle 0))) (client_handle 0)
              (Sim.sampleScript "exit 0" [])
              (mkSt (Sim.host ("", "", Some (ExitError 2))) []) eq_refl)
    as (HC & _).
  destruct (HC ltac:(discriminate))
    as (cr' & details & HCr & _ & _ & _ & _ & _ & Hready).
  exists cr', details. eexists. split; [exact HCr | exact Hready].
Defined.

End EarlierFacts.
